(** * btc-staking-ts: the miniscript template renderer and the staking
      script templates

    A shallow embedding of
      - [src/utils/formatMs.ts]          (the tagged template [miniscript]),
      - [src/utils/stakingScriptMini.ts] (the class [StakingScriptDataMini]),
    followed by the properties of the specification that concern them.

    Modelling conventions.
      - A [Buffer] is a list of bytes.
      - A JavaScript string is a [string]; every [ascii] stands for the code
        unit of the same number (0..255).
      - A JavaScript [number] is modelled by the integer it holds ([Z]) and
        printed as its decimal expansion, which is what
        [Number.prototype.toString] does on the safe integers (magnitude at
        most 2^53 - 1); fractions, NaN and the infinities are not modelled.
      - [throw] is modelled by the [Throw] constructor of [Result]; a
        sequence of JavaScript statements becomes a chain of binds.
      - The two external libraries (the miniscript compiler of
        [@bitgo/wasm-miniscript] and [script.compile] of [bitcoinjs-lib])
        are interfaces, given as type classes. *)

From Stdlib Require Import ZArith NArith Bool List String Ascii Lia.
From Stdlib Require Import Strings.Byte.
From Stdlib Require Import DecimalString DecimalZ.
Import ListNotations.

Local Open Scope string_scope.
Local Open Scope Z_scope.

(* ================================================================== *)
(** ** Exceptions and results *)

(** The exceptions that the modelled code, the Node [Buffer] primitives it
    calls and the external libraries can throw. *)
Inductive Exception : Type :=
| JsError (message : string)        (* [new Error(message)] *)
| JsTypeError (message : string)    (* thrown by [Buffer.concat] *)
| JsRangeError (message : string)   (* thrown by [writeUInt16BE] *)
| ExternalError (message : string). (* thrown by an external library *)

Inductive Result (A : Type) : Type :=
| Ok (a : A)
| Throw (e : Exception).

Arguments Ok {A} a.
Arguments Throw {A} e.

Definition bind {A B : Type} (r : Result A) (k : A -> Result B) : Result B :=
  match r with
  | Ok a => k a
  | Throw e => Throw e
  end.

Notation "x <- r ;; k" := (bind r (fun x => k))
  (at level 61, r at next level, right associativity).

Definition is_ok {A : Type} (r : Result A) : bool :=
  match r with
  | Ok _ => true
  | Throw _ => false
  end.

(* ================================================================== *)
(** ** Buffers and their hexadecimal form *)

Definition Buffer : Type := list byte.

(** The sixteen digits used by [buf.toString("hex")]. *)
Definition hex_digits : string := "0123456789abcdef".

Definition hex_digit (n : N) : ascii :=
  match String.get (N.to_nat n) hex_digits with
  | Some c => c
  | None => "f"%char
  end.

Definition hex_of_byte (b : byte) : string :=
  let n := Byte.to_N b in
  String (hex_digit (n / 16)) (String (hex_digit (n mod 16)) EmptyString).

(** [buf.toString("hex")]: two digits per byte, most significant first. *)
Fixpoint Buffer_toString_hex (buf : Buffer) : string :=
  match buf with
  | [] => EmptyString
  | b :: rest => hex_of_byte b ++ Buffer_toString_hex rest
  end.

(** Reading hexadecimal text back; used only to state what the printed
    form means. *)
Fixpoint index_of (c : ascii) (s : string) : option N :=
  match s with
  | EmptyString => None
  | String d rest =>
      if Ascii.eqb c d then Some 0%N
      else option_map N.succ (index_of c rest)
  end.

Definition hex_value (c : ascii) : option N := index_of c hex_digits.

Definition is_lower_hex (c : ascii) : bool :=
  match hex_value c with
  | Some _ => true
  | None => false
  end.

Fixpoint parse_hex (s : string) : option Buffer :=
  match s with
  | EmptyString => Some []
  | String hi (String lo rest) =>
      match hex_value hi, hex_value lo, parse_hex rest with
      | Some h, Some l, Some bs =>
          option_map (fun b => b :: bs) (Byte.of_N (16 * h + l))
      | _, _, _ => None
      end
  | String _ EmptyString => None
  end.

Fixpoint string_forallb (p : ascii -> bool) (s : string) : bool :=
  match s with
  | EmptyString => true
  | String c rest => p c && string_forallb p rest
  end.

Fixpoint count_char (c : ascii) (s : string) : nat :=
  match s with
  | EmptyString => O
  | String d rest => (if Ascii.eqb c d then 1 else 0) + count_char c rest
  end%nat.

(** [Buffer.alloc(2)] followed by [writeUInt16BE(value)]: Node checks that
    the value lies in 0..65535 and throws a [RangeError] otherwise; then it
    stores [value >>> 8] and [value], each truncated to eight bits. *)
Definition byte_of_Z (z : Z) : byte :=
  match Byte.of_N (Z.to_N (Z.land z 255)) with
  | Some b => b
  | None => x00
  end.

Definition writeUInt16BE (value : Z) : Result Buffer :=
  if (value <? 0) || (65535 <? value)
  then Throw (JsRangeError "ERR_OUT_OF_RANGE")
  else Ok [byte_of_Z (Z.shiftr value 8); byte_of_Z value].

(* ================================================================== *)
(** ** The external libraries *)

(** [@bitgo/wasm-miniscript]: [Miniscript.fromString(text, context)] parses a
    policy and may throw; [toString()] gives its text back; [encode()] gives
    the compiled script. *)
Class MiniscriptApi : Type := {
  Miniscript : Type;
  Miniscript_fromString : string -> string -> Result Miniscript;
  Miniscript_toString : Miniscript -> string;
  Miniscript_encode : Miniscript -> Buffer
}.

(** [bitcoinjs-lib]: [script.compile(chunks)] assembles opcodes and data
    pushes. *)
Inductive Opcode : Type := OP_RETURN.

Inductive Chunk : Type :=
| ChunkOp (op : Opcode)
| ChunkData (data : Buffer).

Class ScriptApi : Type := {
  script_compile : list Chunk -> Result Buffer
}.

(* ================================================================== *)
(** ** [src/utils/formatMs.ts] *)

Section FormatMs.

Context `{MS : MiniscriptApi}.

(** The values a template argument ([unknown]) can hold. *)
#[warnings="-register-all"]
Inductive JsValue : Type :=
| JsUndefined
| JsNull
| JsBoolean (b : bool)
| JsNumber (n : Z)
| JsString (s : string)
| JsBuffer (buf : Buffer)
| JsMiniscript (m : Miniscript)
| JsArray (elems : list JsValue)
| JsObject.                      (* any other object *)

Definition typeof (v : JsValue) : string :=
  match v with
  | JsUndefined => "undefined"
  | JsBoolean _ => "boolean"
  | JsNumber _ => "number"
  | JsString _ => "string"
  | JsNull | JsBuffer _ | JsMiniscript _ | JsArray _ | JsObject => "object"
  end.

(** [n.toString()] for an integer [n]. *)
Definition Number_toString (n : Z) : string :=
  NilZero.string_of_int (Z.to_int n).

Definition MAX_SAFE_INTEGER : Z := 2 ^ 53 - 1.

(** <<
    function formatArg(arg: unknown): string {
      if (Buffer.isBuffer(arg)) { return arg.toString("hex"); }
      if (arg instanceof Miniscript) { return arg.toString(); }
      switch (typeof arg) {
        case "string":
        case "number":
          return arg.toString();
        default:
          throw new Error(`Unsupported type: ${typeof arg}`);
      }
    }
    >> *)
Definition formatArg (arg : JsValue) : Result string :=
  match arg with
  | JsBuffer buf => Ok (Buffer_toString_hex buf)
  | JsMiniscript m => Ok (Miniscript_toString m)
  | JsString s => Ok s
  | JsNumber n => Ok (Number_toString n)
  | _ => Throw (JsError ("Unsupported type: " ++ typeof arg))
  end.

(** The test of [flatArray] on one element:
    [Buffer.isBuffer(e) || e instanceof Miniscript ||
     typeof e === "string" || typeof e === "number"]. *)
Definition supported (e : JsValue) : bool :=
  match e with
  | JsBuffer _ | JsMiniscript _ | JsString _ | JsNumber _ => true
  | _ => false
  end.

(** [parts.join(",")]. *)
Fixpoint join (sep : string) (parts : list string) : string :=
  match parts with
  | [] => EmptyString
  | [p] => p
  | p :: rest => p ++ sep ++ join sep rest
  end.

(** [arr.map(f)] for an [f] that may throw: the first exception wins. *)
Fixpoint mapM {A B : Type} (f : A -> Result B) (l : list A) : Result (list B) :=
  match l with
  | [] => Ok []
  | a :: rest => b <- f a ;; bs <- mapM f rest ;; Ok (b :: bs)
  end.

(** <<
    function flatArray(arr: unknown[]): unknown {
      if (arr.every((e) => Buffer.isBuffer(e) || e instanceof Miniscript ||
                           typeof e === "string" || typeof e === "number")) {
        return arr.map((e) => formatArg(e)).join(",");
      }
      throw new Error("Unsupported type");
    }
    >> *)
Definition flatArray (arr : list JsValue) : Result string :=
  if forallb supported arr
  then parts <- mapM formatArg arr ;; Ok (join "," parts)
  else Throw (JsError "Unsupported type").

(** [\s] on the code units below 256: tab, line feed, vertical tab, form
    feed, carriage return, space and the no-break space. *)
Definition is_whitespace (c : ascii) : bool :=
  let n := N_of_ascii c in
  ((9 <=? n) && (n <=? 13) || (n =? 32) || (n =? 160))%N.

(** [str.replace(/\s+/g, "")]: every run of whitespace is deleted. *)
Fixpoint strip_whitespace (str : string) : string :=
  match str with
  | EmptyString => EmptyString
  | String c rest =>
      if is_whitespace c then strip_whitespace rest
      else String c (strip_whitespace rest)
  end.

(** The two last exits of [formatMs], on a fragment [str] that has been
    stripped already and an [arg] that is not an array. *)
Definition formatMs_scalar (str : string) (arg : JsValue) : Result string :=
  match arg with
  | JsUndefined => Ok str
  | _ => a <- formatArg arg ;; Ok (str ++ a)
  end.

(** <<
    function formatMs(str: string, arg: unknown): string {
      str = str.replace(/\s+/g, "");
      if (arg === undefined) { return str; }
      if (Array.isArray(arg)) { return formatMs(str, flatArray(arg)); }
      return str + formatArg(arg);
    }
    >>
    The recursive call receives the string that [flatArray] returned: it
    strips [str] once more and leaves by the last exit. The [console.log] is
    not modelled. *)
Definition formatMs (str : string) (arg : JsValue) : Result string :=
  let str := strip_whitespace str in
  match arg with
  | JsArray arr =>
      flat <- flatArray arr ;;
      formatMs_scalar (strip_whitespace str) (JsString flat)
  | _ => formatMs_scalar str arg
  end.

(** [strings.reduce((acc, str, i) => acc + formatMs(str, args[i]), "")],
    started at index [i] with accumulator [acc]; [args[i]] is [undefined]
    past the end of [args]. *)
Fixpoint reduce_formatMs (i : nat) (strings : list string)
    (args : list JsValue) (acc : string) : Result string :=
  match strings with
  | [] => Ok acc
  | str :: rest =>
      piece <- formatMs str (nth i args JsUndefined) ;;
      reduce_formatMs (S i) rest args (acc ++ piece)
  end.

(** The [msString] of [formatMsVararg]: the text handed to the compiler. *)
Definition msString (strings : list string) (args : list JsValue)
    : Result string :=
  reduce_formatMs 0 strings args EmptyString.

(** <<
    function formatMsVararg(strings, ...args): Miniscript {
      const msString = strings.reduce(...);
      return Miniscript.fromString(msString, "tap");
    }
    export const miniscript = formatMsVararg;
    >> *)
Definition formatMsVararg (strings : list string) (args : list JsValue)
    : Result Miniscript :=
  text <- msString strings args ;;
  Miniscript_fromString text "tap".

Definition miniscript := formatMsVararg.

End FormatMs.

(* ================================================================== *)
(** ** [src/utils/stakingScriptMini.ts] *)

Section StakingScriptMini.

Context `{MS : MiniscriptApi} `{SC : ScriptApi}.

(** [export const PK_LENGTH = 32;] *)
Definition PK_LENGTH : nat := 32.

(** [function toBuffer(ms) { return Buffer.from(ms.encode()); }] *)
Definition toBuffer (ms : Miniscript) : Buffer := Miniscript_encode ms.

(** The private fields of the class. *)
Record StakingScriptDataMini : Type := {
  stakerKey : Buffer;
  finalityProviderKeys : list Buffer;
  covenantKeys : list Buffer;
  covenantThreshold : Z;
  stakingTimeLock : Z;
  unbondingTimeLock : Z;
  magicBytes : Buffer
}.

(** [src/types/StakingScripts]: the five scripts. *)
Record StakingScripts : Type := {
  timelockScript : Buffer;
  unbondingScript : Buffer;
  slashingScript : Buffer;
  unbondingTimelockScript : Buffer;
  dataEmbedScript : Buffer
}.

Definition key_length_differs (key : Buffer) : bool :=
  negb (Nat.eqb (List.length key) PK_LENGTH).

(** <<
    validate(): boolean {
      if (this.#stakerKey.length != PK_LENGTH) { return false; }
      if (this.#finalityProviderKeys.some(
            (finalityProviderKey) => finalityProviderKey.length != PK_LENGTH))
        { return false; }
      if (this.#covenantKeys.some(
            (covenantKey) => covenantKey.length != PK_LENGTH))
        { return false; }
      if (this.#stakingTimeLock > 65535) { return false; }
      return true;
    }
    >> *)
Definition validate (this : StakingScriptDataMini) : bool :=
  if key_length_differs (stakerKey this) then false
  else if existsb key_length_differs (finalityProviderKeys this) then false
  else if existsb key_length_differs (covenantKeys this) then false
  else if stakingTimeLock this >? 65535 then false
  else true.

(** [!x] for an argument of type [Buffer] or [Buffer[]]: an object
    reference is never falsy, whatever its length. *)
Definition not_object {A : Type} (x : A) : bool := false.

(** [!n] for an argument of type [number]: only zero is falsy among the
    integers. *)
Definition not_number (n : Z) : bool := n =? 0.

(** <<
    constructor(stakerKey, finalityProviderKeys, covenantKeys,
                covenantThreshold, stakingTimelock, unbondingTimelock,
                magicBytes) {
      if (!stakerKey || !finalityProviderKeys || !covenantKeys ||
          !covenantThreshold || !stakingTimelock || !unbondingTimelock ||
          !magicBytes) {
        throw new Error("Missing required input values");
      }
      this.#stakerKey = stakerKey; ...
      if (!this.validate()) {
        throw new Error("Invalid script data provided");
      }
    }
    >> *)
Definition new_StakingScriptDataMini
    (stakerKey : Buffer) (finalityProviderKeys covenantKeys : list Buffer)
    (covenantThreshold stakingTimelock unbondingTimelock : Z)
    (magicBytes : Buffer) : Result StakingScriptDataMini :=
  if not_object stakerKey
     || not_object finalityProviderKeys
     || not_object covenantKeys
     || not_number covenantThreshold
     || not_number stakingTimelock
     || not_number unbondingTimelock
     || not_object magicBytes
  then Throw (JsError "Missing required input values")
  else
    let this := {| stakerKey := stakerKey;
                   finalityProviderKeys := finalityProviderKeys;
                   covenantKeys := covenantKeys;
                   covenantThreshold := covenantThreshold;
                   stakingTimeLock := stakingTimelock;
                   unbondingTimeLock := unbondingTimelock;
                   magicBytes := magicBytes |} in
    if negb (validate this)
    then Throw (JsError "Invalid script data provided")
    else Ok this.

(** What every policy builder does with its template: render the text,
    compile it under the "tap" context, take the script bytes. *)
Definition compile_policy (text : string) : Result Buffer :=
  ms <- Miniscript_fromString text "tap" ;; Ok (toBuffer ms).

(** The template of [buildTimelockScript]:
    [miniscript`and_v(v:pk(${this.#stakerKey}),older(${timelock}))`]. *)
Definition timelock_strings : list string :=
  ["and_v(v:pk("; "),older("; "))"].

Definition timelock_args (this : StakingScriptDataMini) (timelock : Z)
    : list JsValue :=
  [JsBuffer (stakerKey this); JsNumber timelock].

Definition renderTimelockScript (this : StakingScriptDataMini) (timelock : Z)
    : Result string :=
  msString timelock_strings (timelock_args this timelock).

Definition buildTimelockScript (this : StakingScriptDataMini) (timelock : Z)
    : Result Buffer :=
  ms <- miniscript timelock_strings (timelock_args this timelock) ;;
  Ok (toBuffer ms).

(** [return this.buildTimelockScript(this.#stakingTimeLock);] *)
Definition buildStakingTimelockScript (this : StakingScriptDataMini)
    : Result Buffer :=
  buildTimelockScript this (stakingTimeLock this).

(** [return this.buildTimelockScript(this.#unbondingTimeLock);] *)
Definition buildUnbondingTimelockScript (this : StakingScriptDataMini)
    : Result Buffer :=
  buildTimelockScript this (unbondingTimeLock this).

(** The template of [buildUnbondingScript], with the line breaks and the
    indentation of the source. *)
Definition unbonding_strings : list string :=
  ["and_v(
        v:pk(";
   "),
        multi_a(
          ";
   ",
          ";
   "
          )
        )"].

Definition unbonding_args (this : StakingScriptDataMini) : list JsValue :=
  [JsBuffer (stakerKey this);
   JsNumber (covenantThreshold this);
   JsArray (map JsBuffer (covenantKeys this))].

Definition renderUnbondingScript (this : StakingScriptDataMini)
    : Result string :=
  msString unbonding_strings (unbonding_args this).

Definition buildUnbondingScript (this : StakingScriptDataMini)
    : Result Buffer :=
  ms <- miniscript unbonding_strings (unbonding_args this) ;;
  Ok (toBuffer ms).

(** The template of [buildSlashingScript]. Its second argument is
    [this.#finalityProviderKeys.map((pk) => `v:pk(${pk.toString("hex")})`)],
    an array of strings built by an ordinary template literal. *)
Definition slashing_strings : list string :=
  ["
    and_v(
      and_v(
        v:pk(";
   "),
        ";
   "
      ),
      multi_a(";
   ",";
   ")
    )"].

Definition slashing_args (this : StakingScriptDataMini) : list JsValue :=
  [JsBuffer (stakerKey this);
   JsArray (map (fun pk => JsString ("v:pk(" ++ Buffer_toString_hex pk ++ ")"))
                (finalityProviderKeys this));
   JsNumber (covenantThreshold this);
   JsArray (map JsBuffer (covenantKeys this))].

Definition renderSlashingScript (this : StakingScriptDataMini)
    : Result string :=
  msString slashing_strings (slashing_args this).

Definition buildSlashingScript (this : StakingScriptDataMini)
    : Result Buffer :=
  ms <- miniscript slashing_strings (slashing_args this) ;;
  Ok (toBuffer ms).

(** [Buffer.concat(list)]: an element that is not a buffer (here:
    [undefined], modelled by [None]) makes Node throw a [TypeError]. *)
Fixpoint Buffer_concat (bufs : list (option Buffer)) : Result Buffer :=
  match bufs with
  | [] => Ok []
  | None :: _ => Throw (JsTypeError "ERR_INVALID_ARG_TYPE")
  | Some b :: rest => tail <- Buffer_concat rest ;; Ok (b ++ tail)%list
  end.

(** The [serializedStakingData] of [buildDataEmbedScript]:
    <<
      const version = Buffer.alloc(1);
      version.writeUInt8(0);
      const stakingTimeLock = Buffer.alloc(2);
      stakingTimeLock.writeUInt16BE(this.#stakingTimeLock);
      const serializedStakingData = Buffer.concat([
        this.#magicBytes, version, this.#stakerKey,
        this.#finalityProviderKeys[0], stakingTimeLock ]);
    >>
    [this.#finalityProviderKeys[0]] is [undefined] when the array is
    empty. *)
Definition serializedStakingData (this : StakingScriptDataMini)
    : Result Buffer :=
  let version := [x00] in
  stakingTimeLock <- writeUInt16BE (stakingTimeLock this) ;;
  Buffer_concat [Some (magicBytes this);
                 Some version;
                 Some (stakerKey this);
                 nth_error (finalityProviderKeys this) 0;
                 Some stakingTimeLock].

(** [return script.compile([opcodes.OP_RETURN, serializedStakingData]);] *)
Definition buildDataEmbedScript (this : StakingScriptDataMini)
    : Result Buffer :=
  data <- serializedStakingData this ;;
  script_compile [ChunkOp OP_RETURN; ChunkData data].

(** <<
    buildScripts(): StakingScripts {
      return {
        timelockScript: this.buildStakingTimelockScript(),
        unbondingScript: this.buildUnbondingScript(),
        slashingScript: this.buildSlashingScript(),
        unbondingTimelockScript: this.buildUnbondingTimelockScript(),
        dataEmbedScript: this.buildDataEmbedScript(),
      };
    }
    >>
    The properties of an object literal are evaluated from first to last. *)
Definition buildScripts (this : StakingScriptDataMini)
    : Result StakingScripts :=
  t <- buildStakingTimelockScript this ;;
  u <- buildUnbondingScript this ;;
  s <- buildSlashingScript this ;;
  ut <- buildUnbondingTimelockScript this ;;
  d <- buildDataEmbedScript this ;;
  Ok {| timelockScript := t;
        unbondingScript := u;
        slashingScript := s;
        unbondingTimelockScript := ut;
        dataEmbedScript := d |}.

End StakingScriptMini.

(* ================================================================== *)
(** ** The specification's vocabulary *)

(** The five invariants of section 3 of the specification, on the
    arguments of the constructor. *)
Inductive Field : Type :=
| FStakerKey
| FKeyLists
| FStakingTimelock
| FCovenantThreshold
| FMagicBytes.

Definition key32 (key : Buffer) : Prop := List.length key = 32%nat.

Definition invariant_holds (f : Field)
    (staker : Buffer) (fps covs : list Buffer)
    (threshold stakingTimelock : Z) (magic : Buffer) : Prop :=
  match f with
  | FStakerKey => key32 staker
  | FKeyLists => Forall key32 fps /\ Forall key32 covs
  | FStakingTimelock => 1 <= stakingTimelock <= 65535
  | FCovenantThreshold => 1 <= threshold <= Z.of_nat (List.length covs)
  | FMagicBytes => magic <> []
  end.

Definition section3_invariants
    (staker : Buffer) (fps covs : list Buffer)
    (threshold stakingTimelock : Z) (magic : Buffer) : Prop :=
  forall f, invariant_holds f staker fps covs threshold stakingTimelock magic.

(** The whitespace the specification names: space, tab, newline and
    carriage return. *)
Definition spec_whitespace (c : ascii) : bool :=
  let n := N_of_ascii c in
  ((n =? 32) || (n =? 9) || (n =? 10) || (n =? 13))%N.

Fixpoint remove_spec_whitespace (s : string) : string :=
  match s with
  | EmptyString => EmptyString
  | String c rest =>
      if spec_whitespace c then remove_spec_whitespace rest
      else String c (remove_spec_whitespace rest)
  end.

(** The number a decimal literal denotes. *)
Definition decimal_value (s : string) : option Z :=
  option_map Z.of_int (NilZero.int_of_string s).

Definition is_digit (c : ascii) : bool :=
  let n := N_of_ascii c in ((48 <=? n) && (n <=? 57))%N.

(** The number a two-byte big-endian field denotes. *)
Definition uint16_be_value (hi lo : byte) : Z :=
  256 * Z.of_N (Byte.to_N hi) + Z.of_N (Byte.to_N lo).

(** The first exception in a list of results, in order. *)
Fixpoint first_failure {A : Type} (rs : list (Result A)) : option Exception :=
  match rs with
  | [] => None
  | Ok _ :: rest => first_failure rest
  | Throw e :: _ => Some e
  end.

Section Vocabulary.

Context `{MS : MiniscriptApi} `{SC : ScriptApi}.

(** The supported kinds of a list element. *)
Inductive Kind : Type := KBuffer | KMiniscript | KString | KNumber.

Definition kind_of (v : JsValue) : option Kind :=
  match v with
  | JsBuffer _ => Some KBuffer
  | JsMiniscript _ => Some KMiniscript
  | JsString _ => Some KString
  | JsNumber _ => Some KNumber
  | _ => None
  end.

(** All elements are of one and the same supported kind. *)
Definition homogeneous (arr : list JsValue) : Prop :=
  exists k, Forall (fun e => kind_of e = Some k) arr.

(** The text that fills an argument slot. *)
Definition format_slot (arg : JsValue) : Result string :=
  match arg with
  | JsUndefined => Ok EmptyString
  | JsArray arr => flatArray arr
  | _ => formatArg arg
  end.

(** The five sub-builds of [buildScripts], in the order of the bundle. *)
Definition sub_builds (this : StakingScriptDataMini) : list (Result Buffer) :=
  [buildStakingTimelockScript this;
   buildUnbondingScript this;
   buildSlashingScript this;
   buildUnbondingTimelockScript this;
   buildDataEmbedScript this].

End Vocabulary.

(* ================================================================== *)
(** ** Test doubles and sample inputs *)

(** A compiler that accepts every text and a trivial assembler, to run the
    builders on concrete inputs. *)
Definition echo_miniscript : MiniscriptApi := {|
  Miniscript := string;
  Miniscript_fromString := fun text _ => Ok text;
  Miniscript_toString := fun m => m;
  Miniscript_encode := fun m => map byte_of_ascii (list_ascii_of_string m)
|}.

Definition OP_RETURN_byte : byte := x6a.

Definition raw_script : ScriptApi := {|
  script_compile := fun chunks =>
    Ok (flat_map (fun c => match c with
                           | ChunkOp OP_RETURN => [OP_RETURN_byte]
                           | ChunkData d => d
                           end) chunks)
|}.

Definition key_of (b : byte) : Buffer := repeat b 32.

Definition sample_covenant_keys : list Buffer :=
  [key_of x02; key_of x03; key_of x04].

Definition sample_magic : Buffer := [xaa; xbb; xcc; xdd].

(** A staking script data object as the tests build it: one finality
    provider, three covenant keys, threshold two. *)
Definition sample_data : StakingScriptDataMini := {|
  stakerKey := key_of x01;
  finalityProviderKeys := [key_of x05];
  covenantKeys := sample_covenant_keys;
  covenantThreshold := 2;
  stakingTimeLock := 144;
  unbondingTimeLock := 100;
  magicBytes := sample_magic
|}.

(** The input of the payload example of the specification. *)
Definition payload_example : StakingScriptDataMini := {|
  stakerKey := key_of x00;
  finalityProviderKeys := [key_of xff];
  covenantKeys := sample_covenant_keys;
  covenantThreshold := 2;
  stakingTimeLock := 100;
  unbondingTimeLock := 50;
  magicBytes := sample_magic
|}.

(** The same object without finality providers. *)
Definition no_provider_data : StakingScriptDataMini := {|
  stakerKey := key_of x01;
  finalityProviderKeys := [];
  covenantKeys := sample_covenant_keys;
  covenantThreshold := 2;
  stakingTimeLock := 144;
  unbondingTimeLock := 100;
  magicBytes := sample_magic
|}.

(* ================================================================== *)
(** ** The texts of the policies and the arguments that render *)

(** The policy texts of the three templates, written out. *)
Definition timelock_text (staker : Buffer) (lockBlocks : Z) : string :=
  "and_v(v:pk(" ++ Buffer_toString_hex staker ++
  "),older(" ++ Number_toString lockBlocks ++ "))".

Definition unbonding_text (staker : Buffer) (threshold : Z)
    (covs : list Buffer) : string :=
  "and_v(v:pk(" ++ Buffer_toString_hex staker ++
  "),multi_a(" ++ Number_toString threshold ++ "," ++
  join "," (map Buffer_toString_hex covs) ++ "))".

Definition slashing_text (staker : Buffer) (fps : list Buffer)
    (threshold : Z) (covs : list Buffer) : string :=
  "and_v(and_v(v:pk(" ++ Buffer_toString_hex staker ++ ")," ++
  join "," (map (fun pk => "v:pk(" ++ Buffer_toString_hex pk ++ ")") fps) ++
  "),multi_a(" ++ Number_toString threshold ++ "," ++
  join "," (map Buffer_toString_hex covs) ++ "))".

Definition no_whitespace (s : string) : bool :=
  string_forallb (fun c => negb (is_whitespace c)) s.

(** The safe integers of JavaScript: the numbers that [toString] prints
    as their exact decimal digits. *)
Definition safe_integer (n : Z) : Prop :=
  - MAX_SAFE_INTEGER <= n <= MAX_SAFE_INTEGER.

(** Characters by their codes. The seven codes below 256 that a
    JavaScript regular expression counts as whitespace: tab, line feed,
    vertical tab, form feed, carriage return, space, no-break space; and
    the three of them that the specification does not name. *)
Definition js_whitespace_codes : list N := [9; 10; 11; 12; 13; 32; 160]%N.

Definition further_whitespace_codes : list N := [11; 12; 160]%N.

Definition code_in (codes : list N) (c : ascii) : bool :=
  existsb (N.eqb (N_of_ascii c)) codes.

(** The text without the characters of the given codes; every other
    character is kept, in order. *)
Fixpoint remove_chars (codes : list N) (s : string) : string :=
  match s with
  | EmptyString => EmptyString
  | String c rest =>
      if code_in codes c then remove_chars codes rest
      else String c (remove_chars codes rest)
  end.

Definition free_of (codes : list N) (s : string) : bool :=
  string_forallb (fun c => negb (code_in codes c)) s.

Section Renderable.

Context `{MS : MiniscriptApi}.

(** What a template is to render, given how a fragment is cleaned: the
    cleaned fragments, each followed by the text of its argument, from
    the fragment of index [i] on. *)
Fixpoint concat_template (clean : string -> string) (i : nat)
    (strings : list string) (args : list JsValue) : Result string :=
  match strings with
  | [] => Ok EmptyString
  | str :: rest =>
      slot <- format_slot (nth i args JsUndefined) ;;
      tail <- concat_template clean (S i) rest args ;;
      Ok (clean str ++ slot ++ tail)
  end.

(** The arguments a slot can hold without making the renderer throw. *)
Definition renderable (arg : JsValue) : bool :=
  match arg with
  | JsUndefined => true
  | JsArray arr => forallb supported arr
  | _ => supported arg
  end.

(** What the renderer throws on an argument that is not [renderable]. *)
Definition unsupported_error (arg : JsValue) : Exception :=
  match arg with
  | JsArray _ => JsError "Unsupported type"
  | _ => JsError ("Unsupported type: " ++ typeof arg)
  end.

End Renderable.

(* ================================================================== *)
(** ** [tests/helper/dataGenerator.ts]: comparing two bundles *)

(** [Miniscript.fromBitcoinScript(script, context)], of the same external
    library, decodes a script and may throw. *)
Class MiniscriptDecodeApi `{MS : MiniscriptApi} : Type := {
  Miniscript_fromBitcoinScript : Buffer -> string -> Result Miniscript
}.

(** [(e as Error).message]. *)
Definition Exception_message (e : Exception) : string :=
  match e with
  | JsError m | JsTypeError m | JsRangeError m | ExternalError m => m
  end.

(** An object whose properties hold buffers: its own properties in
    insertion order, the order of [Object.keys] and [Object.entries]. *)
Definition ScriptsObject : Type := list (string * Buffer).

(** [o[key]] for the name of a script; [None] stands for [undefined].
    Names that an object inherits from [Object.prototype] are not
    modelled. *)
Fixpoint get_property (o : ScriptsObject) (key : string) : option Buffer :=
  match o with
  | [] => None
  | (k, v) :: rest => if String.eqb key k then Some v else get_property rest key
  end.

(** [a.equals(b)]: the same bytes. *)
Fixpoint Buffer_equals (a b : Buffer) : bool :=
  match a, b with
  | [], [] => true
  | x :: a', y :: b' => Byte.eqb x y && Buffer_equals a' b'
  | _, _ => false
  end.

(** The object that the literal of [buildScripts] creates. *)
Definition object_of_scripts (s : StakingScripts) : ScriptsObject :=
  [("timelockScript", timelockScript s);
   ("unbondingScript", unbondingScript s);
   ("slashingScript", slashingScript s);
   ("unbondingTimelockScript", unbondingTimelockScript s);
   ("dataEmbedScript", dataEmbedScript s)].

Section DataGenerator.

Context `{MS : MiniscriptApi} {MD : MiniscriptDecodeApi}.

(** <<
    function decodeToMs(buffer: Buffer) {
      try {
        return Miniscript.fromBitcoinScript(buffer, "tap").toString();
      } catch (e: unknown) {
        return (e as Error).message;
      }
    }
    >> *)
Definition decodeToMs (buffer : Buffer) : string :=
  match Miniscript_fromBitcoinScript buffer "tap" with
  | Ok ms => Miniscript_toString ms
  | Throw e => Exception_message e
  end.

Definition newline : string := String (ascii_of_nat 10) EmptyString.

(** The callback of [Object.entries(a).forEach]:
    <<
      const bValue = b[key as keyof StakingScripts];
      if (!bValue) { throw new Error(`key ${key} not found in b`); }
      if (!value.equals(bValue)) {
        throw new Error(
          [ `values mismatch for key ${key}: `, value.toString("hex"), `!==`,
            bValue.toString("hex"), `\nms:\n`, decodeToMs(value), '\n!==\n',
            decodeToMs(bValue) ].join(""));
      }
    >> *)
Definition compare_entry (b : ScriptsObject) (entry : string * Buffer)
    : Result unit :=
  let (key, value) := entry in
  match get_property b key with
  | None => Throw (JsError ("key " ++ key ++ " not found in b"))
  | Some bValue =>
      if negb (Buffer_equals value bValue)
      then Throw (JsError (join EmptyString
             ["values mismatch for key " ++ key ++ ": ";
              Buffer_toString_hex value;
              "!==";
              Buffer_toString_hex bValue;
              newline ++ "ms:" ++ newline;
              decodeToMs value;
              newline ++ "!==" ++ newline;
              decodeToMs bValue]))
      else Ok tt
  end.

(** [entries.forEach(f)] for an [f] that may throw. *)
Fixpoint forEach {A : Type} (f : A -> Result unit) (entries : list A)
    : Result unit :=
  match entries with
  | [] => Ok tt
  | x :: rest => _ <- f x ;; forEach f rest
  end.

(** <<
    function assertEqualScripts(a: StakingScripts, b: StakingScripts) {
      if (Object.keys(a).length !== Object.keys(b).length) {
        throw new Error(`keys length mismatch: ${Object.keys(a).length} !== ${
          Object.keys(b).length}`);
      }
      Object.entries(a).forEach(([key, value]) => { ... });
    }
    >> *)
Definition assertEqualScripts (a b : ScriptsObject) : Result unit :=
  if negb (Nat.eqb (List.length a) (List.length b))
  then Throw (JsError ("keys length mismatch: " ++
                       Number_toString (Z.of_nat (List.length a)) ++
                       " !== " ++
                       Number_toString (Z.of_nat (List.length b))))
  else forEach (compare_entry b) a.

End DataGenerator.

(** A decoder that gives the script bytes back as text, to run the
    comparison on concrete inputs. *)
Definition echo_decoder : MiniscriptDecodeApi (MS := echo_miniscript) := {|
  Miniscript_fromBitcoinScript := fun script _ =>
    Ok (Buffer_toString_hex script : @Miniscript echo_miniscript)
|}.

(** The bundle that [buildScripts] returns for [sample_data] with the
    test doubles. *)
Definition sample_bundle : StakingScripts :=
  Eval vm_compute in
    match buildScripts (MS := echo_miniscript) (SC := raw_script) sample_data
    with
    | Ok bundle => bundle
    | Throw _ => {| timelockScript := []; unbondingScript := [];
                    slashingScript := []; unbondingTimelockScript := [];
                    dataEmbedScript := [] |}
    end.

(** An object with a negative staking timelock, which the constructor
    lets through. *)
Definition negative_timelock_data : StakingScriptDataMini := {|
  stakerKey := key_of x01;
  finalityProviderKeys := [key_of x05];
  covenantKeys := sample_covenant_keys;
  covenantThreshold := 2;
  stakingTimeLock := -1;
  unbondingTimeLock := 100;
  magicBytes := sample_magic
|}.

(* ================================================================== *)
(** ** Strings, hexadecimal text and decimal literals *)

Lemma string_app_nil_r (s : string) : s ++ EmptyString = s.
Proof. induction s as [|c s IH]; simpl; [reflexivity | now rewrite IH]. Qed.

Lemma string_app_assoc (a b c : string) : (a ++ b) ++ c = a ++ (b ++ c).
Proof. induction a as [|x a IH]; simpl; [reflexivity | now rewrite IH]. Qed.

Lemma string_length_app (a b : string) :
  String.length (a ++ b) = (String.length a + String.length b)%nat.
Proof. induction a as [|x a IH]; simpl; [reflexivity | now rewrite IH]. Qed.

Lemma string_forallb_app (p : ascii -> bool) (a b : string) :
  string_forallb p (a ++ b) = string_forallb p a && string_forallb p b.
Proof.
  induction a as [|x a IH]; simpl; [reflexivity|].
  now rewrite IH, andb_assoc.
Qed.

Lemma count_char_app (c : ascii) (a b : string) :
  count_char c (a ++ b) = (count_char c a + count_char c b)%nat.
Proof. induction a as [|x a IH]; simpl; [reflexivity | rewrite IH; lia]. Qed.

Lemma hex_of_byte_lower (b : byte) :
  string_forallb is_lower_hex (hex_of_byte b) = true.
Proof. destruct b; reflexivity. Qed.

Lemma hex_lower (buf : Buffer) :
  string_forallb is_lower_hex (Buffer_toString_hex buf) = true.
Proof.
  induction buf as [|b buf IH]; [reflexivity|].
  cbn [Buffer_toString_hex].
  now rewrite string_forallb_app, hex_of_byte_lower, IH.
Qed.

Lemma hex_length (buf : Buffer) :
  String.length (Buffer_toString_hex buf) = (2 * List.length buf)%nat.
Proof.
  induction buf as [|b buf IH]; [reflexivity|].
  cbn [Buffer_toString_hex List.length].
  rewrite string_length_app, IH. cbn [hex_of_byte String.length]; lia.
Qed.

Lemma parse_hex_byte (b : byte) (rest : string) :
  parse_hex (hex_of_byte b ++ rest) =
  option_map (fun bs => b :: bs) (parse_hex rest).
Proof. destruct b; simpl; destruct (parse_hex rest); reflexivity. Qed.

Lemma parse_hex_toString (buf : Buffer) :
  parse_hex (Buffer_toString_hex buf) = Some buf.
Proof.
  induction buf as [|b buf IH]; [reflexivity|].
  cbn [Buffer_toString_hex]. now rewrite parse_hex_byte, IH.
Qed.

Lemma lower_hex_no_comma (s : string) :
  string_forallb is_lower_hex s = true -> count_char "," s = O.
Proof.
  induction s as [|c s IH]; [reflexivity|].
  cbn [string_forallb count_char].
  intros H; apply andb_true_iff in H as [Hc Hs].
  rewrite (IH Hs).
  destruct (Ascii.eqb "," c) eqn:E; [|reflexivity].
  apply Ascii.eqb_eq in E; subst c. vm_compute in Hc. discriminate Hc.
Qed.

Lemma join_hex_commas (bufs : list Buffer) :
  count_char "," (join "," (map Buffer_toString_hex bufs)) =
  (List.length bufs - 1)%nat.
Proof.
  induction bufs as [|b bufs IH]; [reflexivity|].
  destruct bufs as [|b' bufs].
  - simpl. apply lower_hex_no_comma, hex_lower.
  - change (join "," (map Buffer_toString_hex (b :: b' :: bufs)))
      with (Buffer_toString_hex b ++
            "," ++ join "," (map Buffer_toString_hex (b' :: bufs))).
    rewrite !count_char_app, IH, (lower_hex_no_comma _ (hex_lower b)).
    simpl; lia.
Qed.

Lemma to_int_not_nil (z : Z) :
  Z.to_int z <> Decimal.Pos Decimal.Nil /\
  Z.to_int z <> Decimal.Neg Decimal.Nil.
Proof. destruct z; split; cbn; try discriminate.
  - intros H; injection H as H. now destruct (Pos.to_uint p) eqn:E;
      [apply DecimalPos.Unsigned.to_uint_nonnil in E|..].
  - intros H; injection H as H. now destruct (Pos.to_uint p) eqn:E;
      [apply DecimalPos.Unsigned.to_uint_nonnil in E|..].
Qed.

Lemma decimal_value_toString (z : Z) :
  decimal_value (NilZero.string_of_int (Z.to_int z)) = Some z.
Proof.
  unfold decimal_value.
  destruct (to_int_not_nil z) as [Hp Hn].
  rewrite (NilZero.isi _ Hp Hn); simpl.
  now rewrite DecimalZ.of_to.
Qed.

Lemma uint_digits (u : Decimal.uint) :
  string_forallb is_digit (NilEmpty.string_of_uint u) = true.
Proof. induction u; simpl; auto. Qed.

Lemma Number_digits (z : Z) :
  0 <= z -> string_forallb is_digit (NilZero.string_of_int (Z.to_int z)) = true.
Proof.
  intros Hz. destruct z as [|p|p]; [reflexivity| |lia].
  cbn. destruct (Pos.to_uint p); try reflexivity; apply uint_digits.
Qed.

(* ================================================================== *)
(** ** Properties of the template renderer *)

Lemma spec_whitespace_is_whitespace (c : ascii) :
  spec_whitespace c = true -> is_whitespace c = true.
Proof.
  destruct c as [[] [] [] [] [] [] [] []]; vm_compute; auto.
Qed.

Lemma strip_after_spec (s : string) :
  strip_whitespace (remove_spec_whitespace s) = strip_whitespace s.
Proof.
  induction s as [|c s IH]; [reflexivity|].
  cbn [remove_spec_whitespace strip_whitespace].
  destruct (spec_whitespace c) eqn:E.
  - now rewrite (spec_whitespace_is_whitespace c E).
  - cbn [strip_whitespace]. now rewrite IH.
Qed.

Lemma strip_idempotent (s : string) :
  strip_whitespace (strip_whitespace s) = strip_whitespace s.
Proof.
  induction s as [|c s IH]; [reflexivity|].
  cbn [strip_whitespace].
  destruct (is_whitespace c) eqn:E; [exact IH|].
  cbn [strip_whitespace]. now rewrite E, IH.
Qed.

Lemma strip_no_whitespace (s : string) :
  string_forallb (fun c => negb (spec_whitespace c)) (strip_whitespace s)
  = true.
Proof.
  induction s as [|c s IH]; [reflexivity|].
  cbn [strip_whitespace].
  destruct (is_whitespace c) eqn:E; [exact IH|].
  cbn [string_forallb]. rewrite IH, andb_true_r.
  destruct (spec_whitespace c) eqn:F; [|reflexivity].
  apply spec_whitespace_is_whitespace in F; congruence.
Qed.

Section RendererProperties.

Context `{MS : MiniscriptApi}.

Lemma supported_kind (e : JsValue) :
  supported e = true <-> kind_of e <> None.
Proof. destruct e; simpl; split; congruence. Qed.

Lemma forallb_supported (arr : list JsValue) :
  forallb supported arr = true <-> Forall (fun e => kind_of e <> None) arr.
Proof.
  rewrite forallb_forall, Forall_forall.
  split; intros H e He; apply supported_kind, H, He.
Qed.

Lemma not_all_supported (arr : list JsValue) :
  Exists (fun e => kind_of e = None) arr -> forallb supported arr = false.
Proof.
  intros H. destruct (forallb supported arr) eqn:E; [|reflexivity].
  apply forallb_supported in E. rewrite Forall_forall in E.
  apply Exists_exists in H as (e & He & Hk). now destruct (E e He).
Qed.

Lemma mapM_supported (arr : list JsValue) :
  forallb supported arr = true ->
  exists parts, mapM formatArg arr = Ok parts /\
                List.length parts = List.length arr.
Proof.
  induction arr as [|e arr IH]; intros H.
  - now exists [].
  - cbn [forallb] in H. apply andb_true_iff in H as [He Harr].
    destruct (IH Harr) as (parts & Hparts & Hlen).
    destruct e; try discriminate He; cbn [mapM formatArg bind];
      rewrite Hparts; eexists; (split; [reflexivity|]);
      cbn [List.length]; now rewrite Hlen.
Qed.

Lemma mapM_buffers (bufs : list Buffer) :
  mapM formatArg (map JsBuffer bufs) = Ok (map Buffer_toString_hex bufs).
Proof.
  induction bufs as [|b bufs IH]; [reflexivity|].
  cbn [map mapM formatArg bind]. now rewrite IH.
Qed.

Lemma forallb_supported_buffers (bufs : list Buffer) :
  forallb supported (map JsBuffer bufs) = true.
Proof. induction bufs; simpl; auto. Qed.

Lemma flatArray_buffers (bufs : list Buffer) :
  flatArray (map JsBuffer bufs) = Ok (join "," (map Buffer_toString_hex bufs)).
Proof.
  unfold flatArray. now rewrite forallb_supported_buffers, mapM_buffers.
Qed.

(** [formatMs] appends the text of the slot to the stripped fragment. *)
Lemma formatMs_slot (str : string) (arg : JsValue) :
  formatMs str arg =
  (slot <- format_slot arg ;; Ok (strip_whitespace str ++ slot)).
Proof.
  destruct arg; try reflexivity.
  - unfold formatMs, formatMs_scalar, format_slot, bind.
    now rewrite string_app_nil_r.
  - unfold formatMs, format_slot, formatMs_scalar.
    destruct (flatArray elems); cbn [bind formatArg]; [|reflexivity].
    now rewrite strip_idempotent.
Qed.

Lemma formatMs_remove_spec (str : string) (arg : JsValue) :
  formatMs (remove_spec_whitespace str) arg = formatMs str arg.
Proof. now rewrite !formatMs_slot, strip_after_spec. Qed.

Lemma reduce_remove_spec (strings : list string) (args : list JsValue) :
  forall i acc,
    reduce_formatMs i (map remove_spec_whitespace strings) args acc =
    reduce_formatMs i strings args acc.
Proof.
  induction strings as [|str strings IH]; intros i acc; [reflexivity|].
  cbn [map reduce_formatMs]. rewrite formatMs_remove_spec.
  destruct (formatMs str (nth i args JsUndefined)); cbn [bind];
    [apply IH | reflexivity].
Qed.

Lemma is_whitespace_codes (c : ascii) :
  is_whitespace c = code_in js_whitespace_codes c.
Proof. destruct c as [[] [] [] [] [] [] [] []]; reflexivity. Qed.

Lemma whitespace_without_further (c : ascii) :
  code_in further_whitespace_codes c = false ->
  is_whitespace c = spec_whitespace c.
Proof.
  destruct c as [[] [] [] [] [] [] [] []]; vm_compute; auto; discriminate.
Qed.

Lemma strip_is_remove_chars (s : string) :
  strip_whitespace s = remove_chars js_whitespace_codes s.
Proof.
  induction s as [|c s IH]; [reflexivity|].
  cbn [strip_whitespace remove_chars].
  now rewrite is_whitespace_codes, IH.
Qed.

Lemma strip_is_remove_spec (s : string) :
  free_of further_whitespace_codes s = true ->
  strip_whitespace s = remove_spec_whitespace s.
Proof.
  unfold free_of. induction s as [|c s IH]; [reflexivity|].
  cbn [string_forallb strip_whitespace remove_spec_whitespace].
  rewrite andb_true_iff, negb_true_iff. intros [Hc Hs].
  now rewrite (whitespace_without_further c Hc), (IH Hs).
Qed.

(** The reduction appends to its accumulator the cleaned fragments and
    the texts of their arguments. *)
Lemma reduce_concat_template (strings : list string) (args : list JsValue) :
  forall i acc,
    reduce_formatMs i strings args acc =
    (r <- concat_template strip_whitespace i strings args ;; Ok (acc ++ r)).
Proof.
  induction strings as [|str strings IH]; intros i acc.
  - cbn. now rewrite string_app_nil_r.
  - cbn [reduce_formatMs concat_template]. rewrite formatMs_slot.
    destruct (format_slot (nth i args JsUndefined)) as [slot|e];
      cbn [bind]; [|reflexivity].
    rewrite IH.
    destruct (concat_template strip_whitespace (S i) strings args);
      cbn [bind]; [|reflexivity].
    now rewrite !string_app_assoc.
Qed.

Lemma concat_template_ext (clean clean' : string -> string)
    (strings : list string) (args : list JsValue) :
  Forall (fun str => clean str = clean' str) strings ->
  forall i,
    concat_template clean i strings args =
    concat_template clean' i strings args.
Proof.
  induction 1 as [|str strings Hstr _ IH]; intros i; [reflexivity|].
  cbn [concat_template]. now rewrite Hstr, IH.
Qed.

(** C8. Whitespace insensitivity. Removing the spaces, tabs, newlines and
    carriage returns of the literal fragments does not change what the
    template renders (nor what is compiled), and two templates that agree
    up to such whitespace render the same. What is rendered is exactly the
    fragments, each without its whitespace characters and with every other
    character kept in order, each followed by the text of its argument:
    the characters deleted are those of codes 9 to 13, 32 and 160, so for
    fragments free of vertical tabs, form feeds and no-break spaces the
    result is the fragments without their spaces, tabs, newlines and
    carriage returns, interleaved with the argument texts. *)
Theorem whitespace_insensitive (strings : list string) (args : list JsValue) :
  msString (map remove_spec_whitespace strings) args = msString strings args
  /\ formatMsVararg (map remove_spec_whitespace strings) args =
     formatMsVararg strings args
  /\ (forall strings',
        map remove_spec_whitespace strings' =
        map remove_spec_whitespace strings ->
        msString strings' args = msString strings args)
  /\ (forall str arg,
        formatMs str arg =
          (slot <- format_slot arg ;; Ok (strip_whitespace str ++ slot))
        /\ string_forallb (fun c => negb (spec_whitespace c))
             (strip_whitespace str) = true)
  /\ msString strings args =
     concat_template (remove_chars js_whitespace_codes) 0 strings args
  /\ (Forall (fun str => free_of further_whitespace_codes str = true)
        strings ->
      msString strings args =
      concat_template remove_spec_whitespace 0 strings args).
Proof.
  assert (E : msString (map remove_spec_whitespace strings) args =
              msString strings args) by apply reduce_remove_spec.
  assert (C : msString strings args =
              concat_template strip_whitespace 0 strings args).
  { unfold msString. rewrite reduce_concat_template.
    now destruct (concat_template strip_whitespace 0 strings args). }
  repeat split.
  - exact E.
  - unfold formatMsVararg. now rewrite E.
  - intros strings' H. unfold msString.
    rewrite <- (reduce_remove_spec strings'), H. apply reduce_remove_spec.
  - apply formatMs_slot.
  - apply strip_no_whitespace.
  - rewrite C. apply concat_template_ext, Forall_forall.
    intros str _. apply strip_is_remove_chars.
  - intros Hfree. rewrite C. apply concat_template_ext.
    revert Hfree. apply Forall_impl. intros str. apply strip_is_remove_spec.
Qed.

(** C2 (as amended). A list argument is refused, with the error
    "Unsupported type", when one of its elements is of no supported kind; a
    list of supported elements renders as their texts joined by commas, also
    when the kinds differ; a list of N buffers renders as the N
    lower-case hexadecimal texts, in order, with N - 1 commas. *)
Theorem flatArray_supported_kinds (str : string) (arr : list JsValue) :
  (Exists (fun e => kind_of e = None) arr ->
     formatMs str (JsArray arr) = Throw (JsError "Unsupported type"))
  /\ (Forall (fun e => kind_of e <> None) arr ->
        exists parts,
          mapM formatArg arr = Ok parts /\
          List.length parts = List.length arr /\
          formatMs str (JsArray arr) =
            Ok (strip_whitespace str ++ join "," parts))
  /\ (forall bufs : list Buffer,
        formatMs str (JsArray (map JsBuffer bufs)) =
          Ok (strip_whitespace str ++
              join "," (map Buffer_toString_hex bufs))
        /\ Forall (fun b =>
                     string_forallb is_lower_hex (Buffer_toString_hex b) = true
                     /\ parse_hex (Buffer_toString_hex b) = Some b) bufs
        /\ count_char "," (join "," (map Buffer_toString_hex bufs)) =
           (List.length bufs - 1)%nat).
Proof.
  split; [|split].
  - intros H. rewrite formatMs_slot. cbn [format_slot]. unfold flatArray.
    now rewrite (not_all_supported arr H).
  - intros H. apply forallb_supported in H.
    destruct (mapM_supported arr H) as (parts & Hparts & Hlen).
    exists parts. repeat split; try assumption.
    rewrite formatMs_slot. cbn [format_slot]. unfold flatArray.
    now rewrite H, Hparts.
  - intros bufs. repeat split.
    + rewrite formatMs_slot. cbn [format_slot].
      now rewrite flatArray_buffers.
    + apply Forall_forall. intros b _. split;
        [apply hex_lower | apply parse_hex_toString].
    + apply join_hex_commas.
Qed.

End RendererProperties.

(* ================================================================== *)
(** ** Properties of validation and construction *)

Lemma existsb_length_differs (keys : list Buffer) :
  existsb key_length_differs keys = false <-> Forall key32 keys.
Proof.
  induction keys as [|k keys IH]; cbn [existsb].
  - split; [constructor | reflexivity].
  - rewrite orb_false_iff, IH. unfold key_length_differs, key32, PK_LENGTH.
    rewrite negb_false_iff, Nat.eqb_eq. split.
    + intros [Hk Hks]; now constructor.
    + intros H; inversion H; now split.
Qed.

Lemma validate_true_iff (this : StakingScriptDataMini) :
  validate this = true <->
  key32 (stakerKey this) /\
  Forall key32 (finalityProviderKeys this) /\
  Forall key32 (covenantKeys this) /\
  stakingTimeLock this <= 65535.
Proof.
  unfold validate.
  rewrite <- !existsb_length_differs.
  unfold key_length_differs at 1, key32, PK_LENGTH.
  destruct (Nat.eqb_spec (List.length (stakerKey this)) 32) as [E|E];
    cbn [negb];
    [|split; [discriminate | intros [H _]; contradiction]].
  destruct (existsb key_length_differs (finalityProviderKeys this));
    [split; [discriminate | intros (_ & H & _); discriminate]|].
  destruct (existsb key_length_differs (covenantKeys this));
    [split; [discriminate | intros (_ & _ & H & _); discriminate]|].
  destruct (Z.gtb_spec (stakingTimeLock this) 65535) as [G|G].
  - split; [discriminate | intros (_ & _ & _ & H); lia].
  - split; [intros _; repeat split; try assumption; lia | reflexivity].
Qed.

(** The outcome of the constructor, case by case. *)
Lemma constructor_outcome
    (staker : Buffer) (fps covs : list Buffer) (thr stl unb : Z)
    (magic : Buffer) :
  let this := {| stakerKey := staker; finalityProviderKeys := fps;
                 covenantKeys := covs; covenantThreshold := thr;
                 stakingTimeLock := stl; unbondingTimeLock := unb;
                 magicBytes := magic |} in
  new_StakingScriptDataMini staker fps covs thr stl unb magic =
  if (thr =? 0) || (stl =? 0) || (unb =? 0)
  then Throw (JsError "Missing required input values")
  else if validate this then Ok this
       else Throw (JsError "Invalid script data provided").
Proof.
  intros this. unfold new_StakingScriptDataMini, not_object, not_number.
  fold this. cbn [orb]. rewrite orb_false_r.
  destruct ((thr =? 0) || (stl =? 0) || (unb =? 0)); [reflexivity|].
  now destruct (validate this).
Qed.

Lemma zero_test (thr stl unb : Z) :
  (thr =? 0) || (stl =? 0) || (unb =? 0) = false <->
  thr <> 0 /\ stl <> 0 /\ unb <> 0.
Proof. rewrite !orb_false_iff, !Z.eqb_neq. tauto. Qed.

Lemma constructor_accepts
    (staker : Buffer) (fps covs : list Buffer) (thr stl unb : Z)
    (magic : Buffer) :
  key32 staker -> Forall key32 fps -> Forall key32 covs ->
  stl <> 0 -> stl <= 65535 -> thr <> 0 -> unb <> 0 ->
  new_StakingScriptDataMini staker fps covs thr stl unb magic =
    Ok {| stakerKey := staker; finalityProviderKeys := fps;
          covenantKeys := covs; covenantThreshold := thr;
          stakingTimeLock := stl; unbondingTimeLock := unb;
          magicBytes := magic |}.
Proof.
  intros Hk Hf Hc Hs Hs' Ht Hu. rewrite constructor_outcome.
  assert (Z0 : (thr =? 0) || (stl =? 0) || (unb =? 0) = false)
    by now apply zero_test.
  rewrite Z0.
  match goal with |- context [validate ?t] =>
    assert (V : validate t = true) by now apply validate_true_iff end.
  now rewrite V.
Qed.

(** C1 (as amended). The constructor succeeds, and returns an object that
    holds its seven arguments, exactly when the staker key and every
    finality-provider and covenant key are 32 bytes long, the staking
    timelock is not zero and at most 65535, and the covenant threshold and
    the unbonding timelock are not zero. The threshold is not compared with
    the number of covenant keys and the magic bytes are not inspected. *)
Theorem construction_succeeds_iff
    (staker : Buffer) (fps covs : list Buffer) (thr stl unb : Z)
    (magic : Buffer) :
  new_StakingScriptDataMini staker fps covs thr stl unb magic =
    Ok {| stakerKey := staker; finalityProviderKeys := fps;
          covenantKeys := covs; covenantThreshold := thr;
          stakingTimeLock := stl; unbondingTimeLock := unb;
          magicBytes := magic |}
  <->
  key32 staker /\ Forall key32 fps /\ Forall key32 covs /\
  (stl <> 0 /\ stl <= 65535) /\ thr <> 0 /\ unb <> 0.
Proof.
  rewrite constructor_outcome.
  destruct ((thr =? 0) || (stl =? 0) || (unb =? 0)) eqn:Z0.
  - split; [discriminate|].
    intros (_ & _ & _ & (Hs & _) & Ht & Hu).
    assert (F : (thr =? 0) || (stl =? 0) || (unb =? 0) = false)
      by now apply zero_test.
    congruence.
  - apply zero_test in Z0 as (Ht & Hs & Hu).
    match goal with |- context [validate ?t] =>
      pose proof (validate_true_iff t) as V; destruct (validate t) end;
      cbn [stakerKey finalityProviderKeys covenantKeys stakingTimeLock] in V.
    + destruct V as [V _]. specialize (V eq_refl). tauto.
    + split; [discriminate|].
      intros (H1 & H2 & H3 & (_ & H4) & _).
      destruct V as [_ V]. discriminate V. tauto.
Qed.

(** C1, the claim as written fails: a threshold of 4 over 3 covenant keys
    is accepted, and so are empty magic bytes. *)
Lemma section3_not_enforced :
  (is_ok (new_StakingScriptDataMini (key_of x01) [key_of x05]
            sample_covenant_keys 4 144 100 sample_magic) = true
   /\ ~ section3_invariants (key_of x01) [key_of x05]
          sample_covenant_keys 4 144 sample_magic)
  /\ (is_ok (new_StakingScriptDataMini (key_of x01) [key_of x05]
               sample_covenant_keys 2 144 100 []) = true
      /\ ~ section3_invariants (key_of x01) [key_of x05]
             sample_covenant_keys 2 144 []).
Proof.
  split; (split; [reflexivity|]); intros H.
  - specialize (H FCovenantThreshold). cbn in H. lia.
  - specialize (H FMagicBytes). cbn in H. congruence.
Qed.

(** C3 (as amended). When the constructor throws, the exception is one of
    two fixed errors that name no field: "Missing required input values"
    when the covenant threshold, the staking timelock or the unbonding
    timelock is zero; otherwise "Invalid script data provided", when a key
    is not 32 bytes long or the staking timelock exceeds 65535. *)
Theorem construction_errors_are_generic
    (staker : Buffer) (fps covs : list Buffer) (thr stl unb : Z)
    (magic : Buffer) (e : Exception) :
  new_StakingScriptDataMini staker fps covs thr stl unb magic = Throw e ->
  (e = JsError "Missing required input values"
   /\ (thr = 0 \/ stl = 0 \/ unb = 0))
  \/
  (e = JsError "Invalid script data provided"
   /\ thr <> 0 /\ stl <> 0 /\ unb <> 0
   /\ ~ (key32 staker /\ Forall key32 fps /\ Forall key32 covs /\
         stl <= 65535)).
Proof.
  rewrite constructor_outcome.
  destruct ((thr =? 0) || (stl =? 0) || (unb =? 0)) eqn:Z0.
  - intros [= <-]. left. split; [reflexivity|].
    rewrite !orb_true_iff, !Z.eqb_eq in Z0. tauto.
  - apply zero_test in Z0 as (Ht & Hs & Hu).
    match goal with |- context [validate ?t] =>
      pose proof (validate_true_iff t) as V; destruct (validate t) end;
      cbn [stakerKey finalityProviderKeys covenantKeys stakingTimeLock] in V;
      [discriminate|].
    intros [= <-]. right. repeat split; try assumption.
    intros H. apply V in H. discriminate.
Qed.

Lemma construction_errors_are_generic_witness :
  new_StakingScriptDataMini (repeat x01 31) [key_of x05]
    sample_covenant_keys 2 144 100 sample_magic
  = Throw (JsError "Invalid script data provided")
  /\ ~ (key32 (repeat x01 31) /\ Forall key32 [key_of x05] /\
        Forall key32 sample_covenant_keys /\ 144 <= 65535).
Proof.
  split; [reflexivity|].
  destruct (construction_errors_are_generic (repeat x01 31) [key_of x05]
              sample_covenant_keys 2 144 100 sample_magic
              (JsError "Invalid script data provided") eq_refl)
    as [[_ [H|[H|H]]] | (_ & _ & _ & _ & H)];
    [discriminate H | discriminate H | discriminate H | exact H].
Defined.

(** C3, the claim as written fails: no reading of the exception can name
    the violated invariant, since a short staker key and a staking timelock
    of 65536 raise the same exception. *)
Lemma error_names_no_field :
  ~ exists field_of : Exception -> Field,
      forall staker fps covs thr stl unb magic e,
        new_StakingScriptDataMini staker fps covs thr stl unb magic
          = Throw e ->
        ~ invariant_holds (field_of e) staker fps covs thr stl magic.
Proof.
  intros [field_of H].
  pose proof (H (repeat x01 31) [key_of x05] sample_covenant_keys
                2 144 100 sample_magic _ eq_refl) as H1.
  pose proof (H (key_of x01) [key_of x05] sample_covenant_keys
                2 65536 100 sample_magic _ eq_refl) as H2.
  destruct (field_of (JsError "Invalid script data provided")).
  - apply H2. reflexivity.
  - apply H1. split; repeat constructor.
  - apply H1. cbn. lia.
  - apply H1. cbn. lia.
  - apply H1. discriminate.
Qed.

(* ================================================================== *)
(** ** Properties of the data-embed payload *)

Lemma byte_of_Z_value (z : Z) :
  Z.of_N (Byte.to_N (byte_of_Z z)) = z mod 256.
Proof.
  unfold byte_of_Z.
  assert (R : Z.land z 255 = z mod 256)
    by (change 255 with (Z.ones 8); now rewrite Z.land_ones).
  rewrite R.
  pose proof (Z.mod_pos_bound z 256 ltac:(lia)) as B.
  destruct (Byte.of_N (Z.to_N (z mod 256))) as [b|] eqn:E.
  - apply Byte.to_of_N in E. rewrite E. lia.
  - apply Byte.of_N_None_iff in E. lia.
Qed.

Lemma writeUInt16BE_in_range (value : Z) :
  0 <= value <= 65535 ->
  writeUInt16BE value =
    Ok [byte_of_Z (Z.shiftr value 8); byte_of_Z value]
  /\ uint16_be_value (byte_of_Z (Z.shiftr value 8)) (byte_of_Z value) = value.
Proof.
  intros R. unfold writeUInt16BE, uint16_be_value.
  destruct (Z.ltb_spec value 0); [lia|].
  destruct (Z.ltb_spec 65535 value); [lia|].
  split; [reflexivity|].
  rewrite !byte_of_Z_value, Z.shiftr_div_pow2 by lia.
  change (2 ^ 8) with 256.
  assert (value / 256 < 256) by (apply Z.div_lt_upper_bound; lia).
  assert (0 <= value / 256) by (apply Z.div_pos; lia).
  rewrite (Z.mod_small (value / 256)) by lia.
  pose proof (Z.div_mod value 256 ltac:(lia)). lia.
Qed.

Lemma writeUInt16BE_out_of_range (value : Z) :
  value < 0 \/ 65535 < value ->
  writeUInt16BE value = Throw (JsRangeError "ERR_OUT_OF_RANGE").
Proof.
  intros R. unfold writeUInt16BE.
  destruct (Z.ltb_spec value 0); [reflexivity|].
  destruct (Z.ltb_spec 65535 value); [reflexivity|lia].
Qed.

Section PayloadProperties.

Context `{SC : ScriptApi}.

Local Open Scope list_scope.

(** C4. Payload layout: when there is a first finality-provider key and the
    staking timelock fits 16 bits, the payload handed to [script.compile]
    after [OP_RETURN] is the magic bytes, the version byte 0, the staker
    key, the first provider key and two bytes that hold the timelock in
    big-endian order. For magic bytes AABBCCDD, a staker key of 32 zero
    bytes, a first provider key of 32 bytes FF and a timelock of 100, that
    is AABBCCDD 00 00..00 FF..FF 0064, 71 bytes. *)
Theorem payload_layout
    (this : StakingScriptDataMini) (fp : Buffer) (rest : list Buffer) :
  finalityProviderKeys this = fp :: rest ->
  0 <= stakingTimeLock this <= 65535 ->
  (exists hi lo,
      uint16_be_value hi lo = stakingTimeLock this
      /\ serializedStakingData this =
           Ok (magicBytes this ++ [x00] ++ stakerKey this ++ fp ++ [hi; lo])
      /\ buildDataEmbedScript this =
           script_compile
             [ChunkOp OP_RETURN;
              ChunkData (magicBytes this ++ [x00] ++ stakerKey this ++ fp
                         ++ [hi; lo])])
  /\ (magicBytes this = [xaa; xbb; xcc; xdd] ->
      stakerKey this = repeat x00 32 ->
      fp = repeat xff 32 ->
      stakingTimeLock this = 100 ->
      serializedStakingData this =
        Ok ([xaa; xbb; xcc; xdd] ++ [x00] ++ repeat x00 32 ++ repeat xff 32
            ++ [x00; x64])
      /\ List.length ([xaa; xbb; xcc; xdd] ++ [x00] ++ repeat x00 32
                      ++ repeat xff 32 ++ [x00; x64]) = 71%nat).
Proof.
  intros Hfp Hrange.
  destruct (writeUInt16BE_in_range _ Hrange) as [Hw Hv].
  assert (S : serializedStakingData this =
              Ok (magicBytes this ++ [x00] ++ stakerKey this ++ fp ++
                  [byte_of_Z (Z.shiftr (stakingTimeLock this) 8);
                   byte_of_Z (stakingTimeLock this)])).
  { unfold serializedStakingData. rewrite Hw, Hfp.
    cbn [bind nth_error Buffer_concat]. now rewrite app_nil_r. }
  split.
  - exists (byte_of_Z (Z.shiftr (stakingTimeLock this) 8)),
           (byte_of_Z (stakingTimeLock this)).
    split; [exact Hv|]. split; [exact S|].
    unfold buildDataEmbedScript. now rewrite S.
  - intros Hm Hs Hf Ht. split; [|reflexivity].
    rewrite S, Hm, Hs, Hf, Ht. reflexivity.
Qed.

(** C9. Without finality-provider keys the constructor still succeeds, and
    the data-embed script of the resulting object cannot be built: the
    first element of the empty list is [undefined], and [Buffer.concat]
    throws on it. *)
Theorem no_provider_embed_fails
    (staker : Buffer) (covs : list Buffer) (thr stl unb : Z)
    (magic : Buffer) :
  key32 staker -> Forall key32 covs ->
  thr <> 0 -> 1 <= stl <= 65535 -> unb <> 0 ->
  exists this,
    new_StakingScriptDataMini staker [] covs thr stl unb magic = Ok this
    /\ finalityProviderKeys this = []
    /\ serializedStakingData this = Throw (JsTypeError "ERR_INVALID_ARG_TYPE")
    /\ buildDataEmbedScript this = Throw (JsTypeError "ERR_INVALID_ARG_TYPE").
Proof.
  intros Hs Hc Ht Hl Hu.
  set (this := {| stakerKey := staker; finalityProviderKeys := [];
                  covenantKeys := covs; covenantThreshold := thr;
                  stakingTimeLock := stl; unbondingTimeLock := unb;
                  magicBytes := magic |}).
  assert (S : serializedStakingData this =
              Throw (JsTypeError "ERR_INVALID_ARG_TYPE")).
  { unfold serializedStakingData.
    destruct (writeUInt16BE_in_range stl ltac:(lia)) as [Hw _].
    cbn [stakingTimeLock finalityProviderKeys this]. rewrite Hw.
    reflexivity. }
  exists this. split; [|split; [reflexivity|split; [exact S|]]].
  - apply constructor_accepts; try assumption; try lia.
    constructor.
  - unfold buildDataEmbedScript. now rewrite S.
Qed.

End PayloadProperties.

(* ================================================================== *)
(** ** Properties of the policy scripts *)

Section ScriptProperties.

Context `{MS : MiniscriptApi} `{SC : ScriptApi}.

Lemma build_is_compile (strings : list string) (args : list JsValue) :
  (ms <- miniscript strings args ;; Ok (toBuffer ms)) =
  (text <- msString strings args ;; compile_policy text).
Proof.
  unfold miniscript, formatMsVararg, compile_policy.
  now destruct (msString strings args).
Qed.

(** Evaluates the stripping of the literal fragments in the goal. *)
Ltac strip_literals :=
  repeat match goal with
         | |- context [strip_whitespace ?s] =>
             let r := eval vm_compute in (strip_whitespace s) in
             change (strip_whitespace s) with r
         end.

(** Unfolds a rendering into the concatenation of its pieces. *)
Ltac render_pieces :=
  unfold msString; cbn [reduce_formatMs nth]; rewrite !formatMs_slot;
  cbn [format_slot formatArg bind reduce_formatMs];
  rewrite ?flatArray_buffers;
  cbn [bind reduce_formatMs];
  strip_literals.

Ltac normalize_append :=
  rewrite ?string_app_assoc, ?string_app_nil_r; cbn [append].

(** The text of the timelock template. *)
Lemma renderTimelockScript_text (this : StakingScriptDataMini) (timelock : Z) :
  renderTimelockScript this timelock =
  Ok ("and_v(v:pk(" ++ Buffer_toString_hex (stakerKey this) ++
      "),older(" ++ Number_toString timelock ++ "))").
Proof.
  unfold renderTimelockScript, timelock_strings, timelock_args.
  render_pieces. f_equal. now normalize_append.
Qed.

Lemma buildTimelockScript_compiles (this : StakingScriptDataMini) (timelock : Z) :
  buildTimelockScript this timelock =
  compile_policy
    ("and_v(v:pk(" ++ Buffer_toString_hex (stakerKey this) ++
     "),older(" ++ Number_toString timelock ++ "))").
Proof.
  unfold buildTimelockScript. rewrite build_is_compile.
  fold (renderTimelockScript this timelock).
  now rewrite renderTimelockScript_text.
Qed.

(** The text of the unbonding template. *)
Lemma renderUnbondingScript_text (this : StakingScriptDataMini) :
  renderUnbondingScript this =
  Ok ("and_v(v:pk(" ++ Buffer_toString_hex (stakerKey this) ++
      "),multi_a(" ++ Number_toString (covenantThreshold this) ++ "," ++
      join "," (map Buffer_toString_hex (covenantKeys this)) ++ "))").
Proof.
  unfold renderUnbondingScript, unbonding_strings, unbonding_args.
  render_pieces. f_equal. now normalize_append.
Qed.

Lemma flatArray_strings (parts : list string) :
  flatArray (map JsString parts) = Ok (join "," parts).
Proof.
  unfold flatArray.
  assert (F : forallb supported (map JsString parts) = true)
    by (induction parts; simpl; auto).
  assert (M : mapM formatArg (map JsString parts) = Ok parts).
  { induction parts as [|p parts IH]; [reflexivity|].
    cbn [map mapM formatArg bind]. now rewrite IH. }
  now rewrite F, M.
Qed.

(** The text of the slashing template. *)
Lemma renderSlashingScript_text (this : StakingScriptDataMini) :
  renderSlashingScript this =
  Ok ("and_v(and_v(v:pk(" ++ Buffer_toString_hex (stakerKey this) ++ ")," ++
      join "," (map (fun pk => "v:pk(" ++ Buffer_toString_hex pk ++ ")")
                    (finalityProviderKeys this)) ++
      "),multi_a(" ++ Number_toString (covenantThreshold this) ++ "," ++
      join "," (map Buffer_toString_hex (covenantKeys this)) ++ "))").
Proof.
  unfold renderSlashingScript, slashing_strings, slashing_args.
  rewrite <- (map_map (fun pk => "v:pk(" ++ Buffer_toString_hex pk ++ ")")
                JsString).
  unfold msString; cbn [reduce_formatMs nth]; rewrite !formatMs_slot.
  cbn [format_slot formatArg bind reduce_formatMs].
  rewrite flatArray_strings, flatArray_buffers.
  cbn [bind reduce_formatMs]. strip_literals.
  f_equal. now normalize_append.
Qed.

(** C5. Timelock script: [buildTimelockScript] compiles the text
    and_v(v:pk(KEY),older(N)), with the staker key in hexadecimal and the
    timelock in decimal; the staking and the unbonding timelock scripts are
    this template at the staking and at the unbonding timelock. For a
    staker key of 32 bytes 01 and 144 blocks the text is
    and_v(v:pk(0101...01),older(144)), the key taking 64 lower-case
    hexadecimal characters. *)
Theorem timelock_script_exact (this : StakingScriptDataMini) (lockBlocks : Z) :
  buildTimelockScript this lockBlocks =
    compile_policy
      ("and_v(v:pk(" ++ Buffer_toString_hex (stakerKey this) ++
       "),older(" ++ Number_toString lockBlocks ++ "))")
  /\ buildStakingTimelockScript this =
       buildTimelockScript this (stakingTimeLock this)
  /\ buildUnbondingTimelockScript this =
       buildTimelockScript this (unbondingTimeLock this)
  /\ (stakerKey this = repeat x01 32 -> lockBlocks = 144 ->
      renderTimelockScript this lockBlocks =
        Ok "and_v(v:pk(0101010101010101010101010101010101010101010101010101010101010101),older(144))"
      /\ buildTimelockScript this lockBlocks =
           compile_policy
             "and_v(v:pk(0101010101010101010101010101010101010101010101010101010101010101),older(144))"
      /\ String.length (Buffer_toString_hex (stakerKey this)) = 64%nat
      /\ string_forallb is_lower_hex (Buffer_toString_hex (stakerKey this))
         = true).
Proof.
  split; [apply buildTimelockScript_compiles|].
  split; [reflexivity|]. split; [reflexivity|].
  intros Hk Hl.
  rewrite buildTimelockScript_compiles, renderTimelockScript_text, Hk, Hl.
  repeat split.
Qed.

(** C6. Slashing script: with one finality-provider key and a threshold of
    2 over the covenant keys c1, c2, c3, the text that is compiled is
    and_v(and_v(v:pk(staker),v:pk(fp)),multi_a(2,c1,c2,c3)), the keys in
    hexadecimal and in the order given. *)
Theorem slashing_script_structure
    (this : StakingScriptDataMini) (staker fp c1 c2 c3 : Buffer) :
  stakerKey this = staker ->
  finalityProviderKeys this = [fp] ->
  covenantKeys this = [c1; c2; c3] ->
  covenantThreshold this = 2 ->
  renderSlashingScript this =
    Ok ("and_v(and_v(v:pk(" ++ Buffer_toString_hex staker ++
        "),v:pk(" ++ Buffer_toString_hex fp ++
        ")),multi_a(2," ++ Buffer_toString_hex c1 ++
        "," ++ Buffer_toString_hex c2 ++
        "," ++ Buffer_toString_hex c3 ++ "))")
  /\ buildSlashingScript this =
       compile_policy
         ("and_v(and_v(v:pk(" ++ Buffer_toString_hex staker ++
          "),v:pk(" ++ Buffer_toString_hex fp ++
          ")),multi_a(2," ++ Buffer_toString_hex c1 ++
          "," ++ Buffer_toString_hex c2 ++
          "," ++ Buffer_toString_hex c3 ++ "))").
Proof.
  intros Hs Hf Hc Ht.
  assert (R : renderSlashingScript this =
    Ok ("and_v(and_v(v:pk(" ++ Buffer_toString_hex staker ++
        "),v:pk(" ++ Buffer_toString_hex fp ++
        ")),multi_a(2," ++ Buffer_toString_hex c1 ++
        "," ++ Buffer_toString_hex c2 ++
        "," ++ Buffer_toString_hex c3 ++ "))")).
  { rewrite renderSlashingScript_text, Hs, Hf, Hc, Ht.
    cbn [map join]. f_equal. now normalize_append. }
  split; [exact R|].
  unfold buildSlashingScript. rewrite build_is_compile.
  fold (renderSlashingScript this). now rewrite R.
Qed.

(** C7. Atomic bundle: when one of the five sub-builds throws,
    [buildScripts] throws too, and what it throws is the exception of the
    first sub-build that fails, as that sub-build threw it; a bundle is
    returned only when all five succeed, and then it holds their five
    results. *)
Theorem buildScripts_atomic (this : StakingScriptDataMini) :
  ((exists e, In (Throw e) (sub_builds this)) ->
   exists e,
     buildScripts this = Throw e
     /\ first_failure (sub_builds this) = Some e
     /\ In (Throw e) (sub_builds this))
  /\ (forall bundle,
        buildScripts this = Ok bundle ->
        sub_builds this =
          [Ok (timelockScript bundle); Ok (unbondingScript bundle);
           Ok (slashingScript bundle); Ok (unbondingTimelockScript bundle);
           Ok (dataEmbedScript bundle)]).
Proof.
  unfold buildScripts, sub_builds.
  destruct (buildStakingTimelockScript this) as [t|e1];
    destruct (buildUnbondingScript this) as [u|e2];
    destruct (buildSlashingScript this) as [s|e3];
    destruct (buildUnbondingTimelockScript this) as [ut|e4];
    destruct (buildDataEmbedScript this) as [d|e5];
    cbn [bind first_failure]; split;
    try (intros bundle [= <-]; reflexivity);
    try (intros bundle H; discriminate H);
    try (intros _; eexists; split; [reflexivity|];
         split; [reflexivity|]; cbn [In]; tauto).
  intros [e H]. cbn [In] in H. intuition discriminate.
Qed.

(** C10. Only the staking timelock is bounded by 16 bits: for every
    unbonding timelock from 1 on (within the safe integers), also above
    65535, the constructor succeeds when the other arguments pass, and the
    unbonding timelock script compiles and_v(v:pk(KEY),older(D)) where D is
    the decimal literal of that value; a staking timelock above 65535 is
    refused. *)
Theorem unbonding_timelock_unbounded
    (staker : Buffer) (fps covs : list Buffer) (thr stl unb : Z)
    (magic : Buffer) :
  key32 staker -> Forall key32 fps -> Forall key32 covs ->
  thr <> 0 -> stl <> 0 -> stl <= 65535 ->
  1 <= unb -> unb <= MAX_SAFE_INTEGER ->
  (exists this d,
     new_StakingScriptDataMini staker fps covs thr stl unb magic = Ok this
     /\ decimal_value d = Some unb
     /\ string_forallb is_digit d = true
     /\ renderTimelockScript this (unbondingTimeLock this) =
          Ok ("and_v(v:pk(" ++ Buffer_toString_hex staker ++
              "),older(" ++ d ++ "))")
     /\ buildUnbondingTimelockScript this =
          compile_policy
            ("and_v(v:pk(" ++ Buffer_toString_hex staker ++
             "),older(" ++ d ++ "))"))
  /\ (forall stl',
        65535 < stl' ->
        new_StakingScriptDataMini staker fps covs thr stl' unb magic =
          Throw (JsError "Invalid script data provided")).
Proof.
  intros Hk Hf Hc Ht Hs Hs' Hu Hsafe. split.
  - eexists. exists (Number_toString unb).
    split; [apply constructor_accepts; try assumption; lia|].
    split; [apply decimal_value_toString|].
    split; [apply Number_digits; lia|].
    split; [apply renderTimelockScript_text|].
    unfold buildUnbondingTimelockScript.
    apply buildTimelockScript_compiles.
  - intros stl' Hbig. rewrite constructor_outcome.
    assert (Z0 : (thr =? 0) || (stl' =? 0) || (unb =? 0) = false)
      by (apply zero_test; lia).
    rewrite Z0.
    match goal with |- context [validate ?t] =>
      pose proof (validate_true_iff t) as V; destruct (validate t) end;
      [|reflexivity].
    destruct V as [V _]. specialize (V eq_refl).
    cbn [stakingTimeLock] in V. lia.
Qed.

End ScriptProperties.

(* ================================================================== *)
(** ** The theorems at concrete inputs *)

Lemma whitespace_insensitive_witness :
  msString (MS := echo_miniscript)
    ["
      pk(
        "; "
      )"] [JsBuffer [xab]] = Ok "pk(ab)".
Proof.
  etransitivity.
  - apply (proj2 (proj2 (proj2 (proj2 (proj2
             (whitespace_insensitive (MS := echo_miniscript)
                ["
      pk(
        "; "
      )"] [JsBuffer [xab]])))))).
    repeat constructor.
  - reflexivity.
Defined.

Lemma flatArray_supported_kinds_witness :
  formatMs (MS := echo_miniscript) "multi_a(2, "
    (JsArray [JsBuffer [xab]; JsUndefined]) =
  Throw (JsError "Unsupported type").
Proof.
  apply (proj1 (flatArray_supported_kinds (MS := echo_miniscript)
                  "multi_a(2, " [JsBuffer [xab]; JsUndefined])).
  apply Exists_cons_tl, Exists_cons_hd. reflexivity.
Defined.

(** C2, the claim as written fails: a list of one buffer and one number is
    not homogeneous and renders all the same. *)
Lemma mixed_list_renders :
  ~ homogeneous (MS := echo_miniscript) [JsBuffer [xab]; JsNumber 144]
  /\ formatMs (MS := echo_miniscript) "multi_a(2, "
       (JsArray [JsBuffer [xab]; JsNumber 144]) = Ok "multi_a(2,ab,144".
Proof.
  split; [|reflexivity].
  intros [k H]. inversion H as [|? ? Hb Ht]; subst.
  inversion Ht as [|? ? Hn _]; subst.
  cbn in Hb, Hn. congruence.
Qed.

Lemma payload_layout_witness :
  serializedStakingData payload_example =
    Ok ([xaa; xbb; xcc; xdd] ++ [x00] ++ repeat x00 32 ++ repeat xff 32
        ++ [x00; x64])%list.
Proof.
  apply (proj2 (payload_layout (SC := raw_script) payload_example
                  (key_of xff) [] eq_refl ltac:(cbn; lia)));
    reflexivity.
Defined.

Lemma no_provider_embed_fails_witness :
  exists this,
    new_StakingScriptDataMini (key_of x01) [] sample_covenant_keys
      2 144 100 sample_magic = Ok this
    /\ finalityProviderKeys this = []
    /\ serializedStakingData this = Throw (JsTypeError "ERR_INVALID_ARG_TYPE")
    /\ buildDataEmbedScript (SC := raw_script) this =
       Throw (JsTypeError "ERR_INVALID_ARG_TYPE").
Proof.
  apply (no_provider_embed_fails (SC := raw_script)).
  - reflexivity.
  - repeat constructor.
  - lia.
  - lia.
  - lia.
Defined.

Lemma timelock_script_exact_witness :
  renderTimelockScript (MS := echo_miniscript) sample_data 144 =
  Ok "and_v(v:pk(0101010101010101010101010101010101010101010101010101010101010101),older(144))".
Proof.
  apply (proj2 (proj2 (proj2
           (timelock_script_exact (MS := echo_miniscript) sample_data 144))));
    reflexivity.
Defined.

Lemma slashing_script_structure_witness :
  renderSlashingScript (MS := echo_miniscript) sample_data =
  Ok "and_v(and_v(v:pk(0101010101010101010101010101010101010101010101010101010101010101),v:pk(0505050505050505050505050505050505050505050505050505050505050505)),multi_a(2,0202020202020202020202020202020202020202020202020202020202020202,0303030303030303030303030303030303030303030303030303030303030303,0404040404040404040404040404040404040404040404040404040404040404))".
Proof.
  apply (slashing_script_structure (MS := echo_miniscript) sample_data
           (key_of x01) (key_of x05) (key_of x02) (key_of x03) (key_of x04));
    reflexivity.
Defined.

Lemma buildScripts_atomic_witness :
  exists e,
    buildScripts (MS := echo_miniscript) (SC := raw_script) no_provider_data
      = Throw e
    /\ first_failure
         (sub_builds (MS := echo_miniscript) (SC := raw_script)
            no_provider_data) = Some e
    /\ In (Throw e)
         (sub_builds (MS := echo_miniscript) (SC := raw_script)
            no_provider_data).
Proof.
  apply (proj1 (buildScripts_atomic (MS := echo_miniscript)
                  (SC := raw_script) no_provider_data)).
  exists (JsTypeError "ERR_INVALID_ARG_TYPE").
  do 4 right. left. reflexivity.
Defined.

Lemma unbonding_timelock_unbounded_witness :
  exists this d,
    new_StakingScriptDataMini (key_of x01) [key_of x05]
      sample_covenant_keys 2 144 70000 sample_magic = Ok this
    /\ decimal_value d = Some 70000
    /\ string_forallb is_digit d = true
    /\ renderTimelockScript (MS := echo_miniscript) this
         (unbondingTimeLock this) =
       Ok ("and_v(v:pk(" ++ Buffer_toString_hex (key_of x01) ++
           "),older(" ++ d ++ "))")
    /\ buildUnbondingTimelockScript (MS := echo_miniscript) this =
       compile_policy (MS := echo_miniscript)
         ("and_v(v:pk(" ++ Buffer_toString_hex (key_of x01) ++
          "),older(" ++ d ++ "))").
Proof.
  apply (unbonding_timelock_unbounded (MS := echo_miniscript)
           (key_of x01) [key_of x05] sample_covenant_keys 2 144 70000
           sample_magic).
  - reflexivity.
  - repeat constructor.
  - repeat constructor.
  - lia.
  - lia.
  - lia.
  - lia.
  - unfold MAX_SAFE_INTEGER. lia.
Defined.

(* ================================================================== *)
(** ** Further properties of the template renderer *)

Section RenderingOutcome.

Context `{MS : MiniscriptApi}.

Lemma bind_ok {A B : Type} (r : Result A) (k : A -> Result B) (b : B) :
  bind r k = Ok b -> exists a, r = Ok a /\ k a = Ok b.
Proof. destruct r as [a|e]; cbn; [eauto | discriminate]. Qed.

(** The accumulator of the reduction is a prefix of its result. *)
Lemma reduce_acc (strings : list string) (args : list JsValue) :
  forall i acc,
    reduce_formatMs i strings args acc =
    (r <- reduce_formatMs i strings args EmptyString ;; Ok (acc ++ r)).
Proof.
  induction strings as [|str strings IH]; intros i acc.
  - cbn. now rewrite string_app_nil_r.
  - cbn [reduce_formatMs].
    destruct (formatMs str (nth i args JsUndefined)) as [piece|e];
      cbn [bind append]; [|reflexivity].
    rewrite (IH (S i) (acc ++ piece)), (IH (S i) piece).
    destruct (reduce_formatMs (S i) strings args EmptyString);
      cbn [bind]; [|reflexivity].
    now rewrite string_app_assoc.
Qed.

(** The reduction reads the arguments at the indices of its fragments
    only. *)
Lemma reduce_ext (strings : list string) (args args' : list JsValue) :
  forall i acc,
    (forall j, (i <= j < i + List.length strings)%nat ->
               nth j args JsUndefined = nth j args' JsUndefined) ->
    reduce_formatMs i strings args acc = reduce_formatMs i strings args' acc.
Proof.
  induction strings as [|str strings IH]; intros i acc H; [reflexivity|].
  cbn [reduce_formatMs List.length] in *.
  rewrite (H i) by lia.
  destruct (formatMs str (nth i args' JsUndefined)); cbn [bind];
    [|reflexivity].
  apply IH. intros j Hj. apply H. lia.
Qed.

Lemma reduce_shift (strings : list string) (a : JsValue)
    (args : list JsValue) :
  forall i acc,
    reduce_formatMs (S i) strings (a :: args) acc =
    reduce_formatMs i strings args acc.
Proof.
  induction strings as [|str strings IH]; intros i acc; [reflexivity|].
  cbn [reduce_formatMs nth].
  destruct (formatMs str (nth i args JsUndefined)); cbn [bind];
    [apply IH | reflexivity].
Qed.

Lemma format_slot_renderable (arg : JsValue) :
  renderable arg = true -> exists text, format_slot arg = Ok text.
Proof.
  destruct arg; cbn; try discriminate; eauto.
  intros H. unfold flatArray. rewrite H.
  destruct (mapM_supported elems H) as (parts & -> & _). cbn; eauto.
Qed.

Lemma format_slot_unsupported (arg : JsValue) :
  renderable arg = false -> format_slot arg = Throw (unsupported_error arg).
Proof.
  destruct arg; cbn; try discriminate; try reflexivity.
  intros H. unfold flatArray. now rewrite H.
Qed.

Lemma reduce_ok_iff (strings : list string) (args : list JsValue) :
  forall i acc,
    (exists text, reduce_formatMs i strings args acc = Ok text) <->
    (forall j, (j < List.length strings)%nat ->
               renderable (nth (i + j) args JsUndefined) = true).
Proof.
  induction strings as [|str strings IH]; intros i acc.
  - cbn. split; [intros _ j Hj; lia | eauto].
  - cbn [reduce_formatMs List.length]. rewrite formatMs_slot. split.
    + intros [text H].
      apply bind_ok in H as (piece & Hp & H).
      apply bind_ok in Hp as (slot & Hs & _).
      intros [|j] Hj.
      * rewrite Nat.add_0_r.
        destruct (renderable (nth i args JsUndefined)) eqn:R; [reflexivity|].
        rewrite (format_slot_unsupported _ R) in Hs. discriminate.
      * replace (i + S j)%nat with (S i + j)%nat by lia.
        apply (proj1 (IH (S i) (acc ++ piece))); [eauto | lia].
    + intros H.
      destruct (format_slot_renderable (nth i args JsUndefined)) as [slot Hs].
      { rewrite <- (Nat.add_0_r i). apply H. lia. }
      rewrite Hs. cbn [bind].
      apply IH. intros j Hj.
      replace (S i + j)%nat with (i + S j)%nat by lia. apply H. lia.
Qed.

Lemma reduce_first_failure (strings : list string) (args : list JsValue) :
  forall k acc i,
    (i < List.length strings)%nat ->
    renderable (nth (k + i) args JsUndefined) = false ->
    (forall j, (j < i)%nat ->
               renderable (nth (k + j) args JsUndefined) = true) ->
    reduce_formatMs k strings args acc =
    Throw (unsupported_error (nth (k + i) args JsUndefined)).
Proof.
  induction strings as [|str strings IH]; intros k acc i Hi Hbad Hgood.
  - cbn in Hi. lia.
  - cbn [reduce_formatMs List.length] in *. rewrite formatMs_slot.
    destruct i as [|i].
    + rewrite Nat.add_0_r in *.
      now rewrite (format_slot_unsupported _ Hbad).
    + destruct (format_slot_renderable (nth k args JsUndefined)) as [slot Hs].
      { rewrite <- (Nat.add_0_r k). apply Hgood. lia. }
      rewrite Hs. cbn [bind].
      replace (k + S i)%nat with (S k + i)%nat in * by lia.
      apply IH; [lia | assumption |].
      intros j Hj. replace (S k + j)%nat with (k + S j)%nat by lia.
      apply Hgood. lia.
Qed.

(** X4. Rendering succeeds exactly when every slot that has a fragment
    holds [undefined], a buffer, a Miniscript, a string, a number, or a
    list of such values. *)
Theorem render_succeeds_iff (strings : list string) (args : list JsValue) :
  (exists text, msString strings args = Ok text) <->
  (forall i, (i < List.length strings)%nat ->
             renderable (nth i args JsUndefined) = true).
Proof. apply (reduce_ok_iff strings args 0%nat EmptyString). Qed.

(** X5. When rendering fails, the exception is that of the first slot
    whose argument cannot be rendered: "Unsupported type" for a list,
    "Unsupported type: T" with T the [typeof] of the argument otherwise;
    the compiler is not called. *)
Theorem render_first_failure
    (strings : list string) (args : list JsValue) (i : nat) :
  (i < List.length strings)%nat ->
  renderable (nth i args JsUndefined) = false ->
  (forall j, (j < i)%nat -> renderable (nth j args JsUndefined) = true) ->
  msString strings args = Throw (unsupported_error (nth i args JsUndefined))
  /\ formatMsVararg strings args =
     Throw (unsupported_error (nth i args JsUndefined)).
Proof.
  intros Hi Hbad Hgood.
  assert (E : msString strings args =
              Throw (unsupported_error (nth i args JsUndefined)))
    by (apply (reduce_first_failure strings args 0%nat EmptyString i);
        assumption).
  split; [exact E|]. unfold formatMsVararg. now rewrite E.
Qed.

(** X6. Arguments beyond the last fragment are ignored, and a missing
    trailing argument is the same as an [undefined] one. *)
Theorem surplus_arguments_ignored
    (strings : list string) (args extra : list JsValue) (n : nat) :
  ((List.length strings <= List.length args)%nat ->
   msString strings (args ++ extra) = msString strings args)
  /\ msString strings (args ++ repeat JsUndefined n) = msString strings args.
Proof.
  split.
  - intros Hlen. apply reduce_ext. intros j Hj.
    apply app_nth1. lia.
  - apply reduce_ext. intros j _.
    destruct (Nat.lt_ge_cases j (List.length args)) as [L|G].
    + now apply app_nth1.
    + rewrite app_nth2 by lia. rewrite (nth_overflow args) by lia.
      apply nth_repeat.
Qed.

(** X13. An empty list renders like [undefined], and a list of one
    supported value renders like that value. *)
Theorem short_lists_render (str : string) :
  formatMs str (JsArray []) = formatMs str JsUndefined
  /\ (forall v, supported v = true ->
                formatMs str (JsArray [v]) = formatMs str v).
Proof.
  split.
  - now rewrite !formatMs_slot.
  - intros v Hv. rewrite !formatMs_slot.
    destruct v; try discriminate Hv; reflexivity.
Qed.

Lemma join_cons (sep p : string) (parts : list string) :
  join sep (p :: parts) =
  p ++ fold_right (fun q acc => sep ++ q ++ acc) EmptyString parts.
Proof.
  revert p. induction parts as [|q parts IH]; intros p.
  - cbn. now rewrite string_app_nil_r.
  - change (join sep (p :: q :: parts)) with (p ++ sep ++ join sep (q :: parts)).
    now rewrite IH.
Qed.

Lemma mapM_cons_ok (v : JsValue) (vs : list JsValue) (parts : list string) :
  mapM formatArg (v :: vs) = Ok parts ->
  exists p parts', parts = p :: parts' /\ formatArg v = Ok p /\
                   mapM formatArg vs = Ok parts'.
Proof.
  cbn [mapM]. intros H.
  apply bind_ok in H as (p & Hp & H).
  apply bind_ok in H as (parts' & Hps & [= <-]). eauto.
Qed.

Lemma format_slot_supported (v : JsValue) :
  supported v = true -> format_slot v = formatArg v.
Proof. destruct v; try discriminate; reflexivity. Qed.

(** The fragments [sep] in front of each argument, then [suffix]. *)
Lemma separate_tail (sep suffix : string) :
  strip_whitespace sep = "," ->
  forall vs parts,
    forallb supported vs = true ->
    mapM formatArg vs = Ok parts ->
    reduce_formatMs 0 (repeat sep (List.length vs) ++ [suffix]) vs EmptyString
    = Ok (fold_right (fun q acc => "," ++ q ++ acc) EmptyString parts ++
          strip_whitespace suffix).
Proof.
  intros Hsep. induction vs as [|v vs IH]; intros parts Hall Hparts.
  - injection Hparts as <-. cbn [List.length repeat app reduce_formatMs nth].
    rewrite formatMs_slot. cbn. now rewrite string_app_nil_r.
  - apply mapM_cons_ok in Hparts as (p & parts' & -> & Hp & Hps).
    cbn [forallb] in Hall. apply andb_true_iff in Hall as [Hv Hvs].
    cbn [List.length repeat app reduce_formatMs nth].
    rewrite formatMs_slot, (format_slot_supported v Hv), Hp, Hsep.
    cbn [bind]. rewrite reduce_shift, reduce_acc, (IH parts' Hvs Hps).
    cbn [bind fold_right]. f_equal.
    now rewrite !string_app_assoc.
Qed.

(** X3. A list argument renders like its elements passed one by one
    with a comma fragment between them, as the test of [miniscript]
    expects of multi_a(2, a, b, c) and multi_a(2, [a, b, c]). *)
Theorem list_argument_like_separate_arguments
    (prefix sep suffix : string) (v : JsValue) (rest : list JsValue) :
  strip_whitespace sep = "," ->
  forallb supported (v :: rest) = true ->
  msString (prefix :: repeat sep (List.length rest) ++ [suffix]) (v :: rest)
  = msString [prefix; suffix] [JsArray (v :: rest)]
  /\ formatMsVararg (prefix :: repeat sep (List.length rest) ++ [suffix])
       (v :: rest)
     = formatMsVararg [prefix; suffix] [JsArray (v :: rest)].
Proof.
  intros Hsep Hall.
  assert (E : msString (prefix :: repeat sep (List.length rest) ++ [suffix])
                (v :: rest)
              = msString [prefix; suffix] [JsArray (v :: rest)]).
  { destruct (mapM_supported _ Hall) as (parts & Hparts & _).
    pose proof Hparts as Hparts'.
    apply mapM_cons_ok in Hparts' as (p & parts' & -> & Hp & Hps).
    pose proof Hall as Hall'. cbn [forallb] in Hall'.
    apply andb_true_iff in Hall' as [Hv Hvs].
    unfold msString.
    cbn [app reduce_formatMs nth]. rewrite !formatMs_slot.
    rewrite (format_slot_supported v Hv), Hp.
    cbn [format_slot]. unfold flatArray. rewrite Hall, Hparts.
    cbn [bind reduce_formatMs].
    rewrite reduce_shift, reduce_acc, (separate_tail sep suffix Hsep rest parts' Hvs Hps).
    cbn [bind append]. rewrite join_cons. f_equal.
    now rewrite !string_app_assoc, ?string_app_nil_r. }
  split; [exact E|]. unfold formatMsVararg. now rewrite E.
Qed.

End RenderingOutcome.

(* ================================================================== *)
(** ** Further properties of the staking scripts *)

Lemma string_forallb_impl (p q : ascii -> bool) (s : string) :
  (forall c, p c = true -> q c = true) ->
  string_forallb p s = true -> string_forallb q s = true.
Proof.
  intros Hpq. induction s as [|c s IH]; [reflexivity|].
  cbn [string_forallb]. rewrite !andb_true_iff. intros [Hc Hs].
  split; [apply Hpq, Hc | apply IH, Hs].
Qed.

Lemma lower_hex_not_whitespace (c : ascii) :
  is_lower_hex c = true -> negb (is_whitespace c) = true.
Proof. destruct c as [[] [] [] [] [] [] [] []]; vm_compute; auto. Qed.

Lemma digit_not_whitespace (c : ascii) :
  is_digit c = true -> negb (is_whitespace c) = true.
Proof. destruct c as [[] [] [] [] [] [] [] []]; vm_compute; auto. Qed.

Lemma no_whitespace_app (a b : string) :
  no_whitespace (a ++ b) = no_whitespace a && no_whitespace b.
Proof. apply string_forallb_app. Qed.

Lemma no_whitespace_hex (buf : Buffer) :
  no_whitespace (Buffer_toString_hex buf) = true.
Proof.
  apply (string_forallb_impl is_lower_hex);
    [apply lower_hex_not_whitespace | apply hex_lower].
Qed.

Lemma no_whitespace_uint (u : Decimal.uint) :
  no_whitespace (NilZero.string_of_uint u) = true.
Proof.
  apply (string_forallb_impl is_digit); [apply digit_not_whitespace|].
  destruct u; try reflexivity; apply uint_digits.
Qed.

Lemma no_whitespace_number (z : Z) : no_whitespace (Number_toString z) = true.
Proof.
  unfold Number_toString.
  destruct (Z.to_int z) as [u|u]; cbn [NilZero.string_of_int].
  - apply no_whitespace_uint.
  - change (no_whitespace (String "-" (NilZero.string_of_uint u)))
      with (negb (is_whitespace "-") && no_whitespace (NilZero.string_of_uint u)).
    now rewrite no_whitespace_uint.
Qed.

Lemma no_whitespace_join (parts : list string) :
  Forall (fun p => no_whitespace p = true) parts ->
  no_whitespace (join "," parts) = true.
Proof.
  induction 1 as [|p parts Hp Hparts IH]; [reflexivity|].
  destruct parts as [|q parts]; [exact Hp|].
  change (join "," (p :: q :: parts)) with (p ++ "," ++ join "," (q :: parts)).
  now rewrite !no_whitespace_app, Hp, IH.
Qed.

Lemma app_same_length_inj {A : Type} (a a' b b' : list A) :
  List.length a = List.length a' ->
  (a ++ b = a' ++ b')%list -> a = a' /\ b = b'.
Proof.
  revert a'. induction a as [|x a IH]; intros [|x' a'] Hlen H;
    try discriminate Hlen.
  - now split.
  - cbn in Hlen, H. injection H as -> H. injection Hlen as Hlen.
    destruct (IH a' Hlen H) as [-> ->]. now split.
Qed.

Section BundleProperties.

Context `{MS : MiniscriptApi} `{SC : ScriptApi}.

Lemma buildUnbondingScript_compiles (this : StakingScriptDataMini) :
  buildUnbondingScript this =
  compile_policy (unbonding_text (stakerKey this) (covenantThreshold this)
                    (covenantKeys this)).
Proof.
  unfold buildUnbondingScript. rewrite build_is_compile.
  fold (renderUnbondingScript this).
  now rewrite renderUnbondingScript_text.
Qed.

Lemma buildSlashingScript_compiles (this : StakingScriptDataMini) :
  buildSlashingScript this =
  compile_policy (slashing_text (stakerKey this) (finalityProviderKeys this)
                    (covenantThreshold this) (covenantKeys this)).
Proof.
  unfold buildSlashingScript. rewrite build_is_compile.
  fold (renderSlashingScript this).
  now rewrite renderSlashingScript_text.
Qed.

(** X1. For a covenant threshold within the safe integers, the
    unbonding script compiles the text
    and_v(v:pk(STAKER),multi_a(THRESHOLD,C1,...,Cn)): the staker key and the
    covenant keys in hexadecimal, the covenant keys in the order given and
    separated by commas, the threshold in decimal. *)
Theorem unbonding_script_text (this : StakingScriptDataMini) :
  safe_integer (covenantThreshold this) ->
  renderUnbondingScript this =
    Ok (unbonding_text (stakerKey this) (covenantThreshold this)
          (covenantKeys this))
  /\ buildUnbondingScript this =
       compile_policy
         (unbonding_text (stakerKey this) (covenantThreshold this)
            (covenantKeys this)).
Proof.
  intros _.
  split; [apply renderUnbondingScript_text | apply buildUnbondingScript_compiles].
Qed.

(** X2. For a covenant threshold within the safe integers, the slashing
    script compiles, for any number of finality providers, the text
    and_v(and_v(v:pk(STAKER),v:pk(FP1),...,v:pk(FPm)),multi_a(T,C1,...,Cn)),
    the provider terms and the covenant keys in the order given. *)
Theorem slashing_script_text (this : StakingScriptDataMini) :
  safe_integer (covenantThreshold this) ->
  renderSlashingScript this =
    Ok (slashing_text (stakerKey this) (finalityProviderKeys this)
          (covenantThreshold this) (covenantKeys this))
  /\ buildSlashingScript this =
       compile_policy
         (slashing_text (stakerKey this) (finalityProviderKeys this)
            (covenantThreshold this) (covenantKeys this)).
Proof.
  intros _.
  split; [apply renderSlashingScript_text | apply buildSlashingScript_compiles].
Qed.

(** X7. Rendering the three policy templates never throws, whatever the
    object holds, and the text handed to the compiler contains no
    whitespace. *)
Theorem policies_render_without_whitespace
    (this : StakingScriptDataMini) (lockBlocks : Z) :
  exists t u s,
    renderTimelockScript this lockBlocks = Ok t
    /\ renderUnbondingScript this = Ok u
    /\ renderSlashingScript this = Ok s
    /\ no_whitespace t = true
    /\ no_whitespace u = true
    /\ no_whitespace s = true.
Proof.
  exists (timelock_text (stakerKey this) lockBlocks),
         (unbonding_text (stakerKey this) (covenantThreshold this)
            (covenantKeys this)),
         (slashing_text (stakerKey this) (finalityProviderKeys this)
            (covenantThreshold this) (covenantKeys this)).
  assert (Hcov : no_whitespace
                   (join "," (map Buffer_toString_hex (covenantKeys this)))
                 = true).
  { apply no_whitespace_join, Forall_map, Forall_forall.
    intros k _. apply no_whitespace_hex. }
  assert (Hfp : no_whitespace
                  (join ","
                     (map (fun pk => "v:pk(" ++ Buffer_toString_hex pk ++ ")")
                        (finalityProviderKeys this))) = true).
  { apply no_whitespace_join, Forall_map, Forall_forall.
    intros k _. now rewrite !no_whitespace_app, no_whitespace_hex. }
  split; [apply renderTimelockScript_text|].
  split; [apply renderUnbondingScript_text|].
  split; [apply renderSlashingScript_text|].
  unfold timelock_text, unbonding_text, slashing_text.
  rewrite !no_whitespace_app, Hcov, Hfp, !no_whitespace_hex,
    !no_whitespace_number.
  repeat split.
Qed.

Lemma serialized_ok_inv (this : StakingScriptDataMini) (payload : Buffer) :
  serializedStakingData this = Ok payload ->
  exists fp rest,
    finalityProviderKeys this = fp :: rest
    /\ 0 <= stakingTimeLock this <= 65535
    /\ payload =
       (magicBytes this ++ [x00] ++ stakerKey this ++ fp ++
        [byte_of_Z (Z.shiftr (stakingTimeLock this) 8);
         byte_of_Z (stakingTimeLock this)])%list.
Proof.
  unfold serializedStakingData, writeUInt16BE.
  destruct (Z.ltb_spec (stakingTimeLock this) 0); [discriminate|].
  destruct (Z.ltb_spec 65535 (stakingTimeLock this)); [discriminate|].
  destruct (finalityProviderKeys this) as [|fp rest]; [discriminate|].
  cbn [bind nth_error Buffer_concat orb]. rewrite app_nil_r. intros [= <-].
  exists fp, rest. repeat split; try lia.
Qed.

(** X8. The payload of the data-embed script: a staking timelock outside
    0..65535 makes [writeUInt16BE] throw a RangeError, before the provider
    key is read; within the range an empty provider list makes
    [Buffer.concat] throw a TypeError; the payload exists exactly when there
    is a provider key and the timelock is within the range. *)
Theorem payload_outcome (this : StakingScriptDataMini) :
  (stakingTimeLock this < 0 \/ 65535 < stakingTimeLock this ->
   serializedStakingData this = Throw (JsRangeError "ERR_OUT_OF_RANGE")
   /\ buildDataEmbedScript this = Throw (JsRangeError "ERR_OUT_OF_RANGE"))
  /\ (0 <= stakingTimeLock this <= 65535 ->
      finalityProviderKeys this = [] ->
      serializedStakingData this = Throw (JsTypeError "ERR_INVALID_ARG_TYPE")
      /\ buildDataEmbedScript this =
         Throw (JsTypeError "ERR_INVALID_ARG_TYPE"))
  /\ ((exists payload, serializedStakingData this = Ok payload) <->
      finalityProviderKeys this <> [] /\ 0 <= stakingTimeLock this <= 65535).
Proof.
  split; [|split].
  - intros Hout.
    assert (S : serializedStakingData this =
                Throw (JsRangeError "ERR_OUT_OF_RANGE"))
      by (unfold serializedStakingData;
          now rewrite (writeUInt16BE_out_of_range _ Hout)).
    split; [exact S|]. unfold buildDataEmbedScript. now rewrite S.
  - intros Hin Hfp.
    assert (S : serializedStakingData this =
                Throw (JsTypeError "ERR_INVALID_ARG_TYPE")).
    { unfold serializedStakingData.
      destruct (writeUInt16BE_in_range _ Hin) as [-> _].
      now rewrite Hfp. }
    split; [exact S|]. unfold buildDataEmbedScript. now rewrite S.
  - split.
    + intros [payload H].
      apply serialized_ok_inv in H as (fp & rest & Hfp & Hr & _).
      split; [now rewrite Hfp | exact Hr].
    + intros [Hfp Hr]. unfold serializedStakingData.
      destruct (writeUInt16BE_in_range _ Hr) as [-> _].
      destruct (finalityProviderKeys this) as [|fp rest]; [contradiction|].
      cbn. eauto.
Qed.

(** X9. [buildScripts] returns a bundle only for an object that has a
    finality-provider key and a staking timelock within 0..65535, whatever
    the compiler and the assembler do. *)
Theorem bundle_needs_provider_and_timelock
    (this : StakingScriptDataMini) (bundle : StakingScripts) :
  buildScripts this = Ok bundle ->
  finalityProviderKeys this <> [] /\ 0 <= stakingTimeLock this <= 65535.
Proof.
  unfold buildScripts. intros H.
  apply bind_ok in H as (t & _ & H).
  apply bind_ok in H as (u & _ & H).
  apply bind_ok in H as (s & _ & H).
  apply bind_ok in H as (ut & _ & H).
  apply bind_ok in H as (d & Hd & _).
  unfold buildDataEmbedScript in Hd.
  apply bind_ok in Hd as (payload & Hp & _).
  apply serialized_ok_inv in Hp as (fp & rest & Hfp & Hr & _).
  split; [now rewrite Hfp | exact Hr].
Qed.

Lemma buildScripts_ok_iff
    (this : StakingScriptDataMini) (bundle : StakingScripts) :
  buildScripts this = Ok bundle <->
  compile_policy (timelock_text (stakerKey this) (stakingTimeLock this))
    = Ok (timelockScript bundle)
  /\ compile_policy (unbonding_text (stakerKey this) (covenantThreshold this)
                       (covenantKeys this))
     = Ok (unbondingScript bundle)
  /\ compile_policy (slashing_text (stakerKey this)
                       (finalityProviderKeys this) (covenantThreshold this)
                       (covenantKeys this))
     = Ok (slashingScript bundle)
  /\ compile_policy (timelock_text (stakerKey this) (unbondingTimeLock this))
     = Ok (unbondingTimelockScript bundle)
  /\ exists payload,
       serializedStakingData this = Ok payload
       /\ script_compile [ChunkOp OP_RETURN; ChunkData payload]
          = Ok (dataEmbedScript bundle).
Proof.
  unfold buildScripts, buildStakingTimelockScript,
    buildUnbondingTimelockScript, buildDataEmbedScript.
  rewrite !buildTimelockScript_compiles, buildUnbondingScript_compiles,
    buildSlashingScript_compiles.
  fold (timelock_text (stakerKey this) (stakingTimeLock this)).
  fold (timelock_text (stakerKey this) (unbondingTimeLock this)).
  split.
  - intros H.
    apply bind_ok in H as (t & Ht & H).
    apply bind_ok in H as (u & Hu & H).
    apply bind_ok in H as (s & Hs & H).
    apply bind_ok in H as (ut & Hut & H).
    apply bind_ok in H as (d & Hd & [= <-]).
    apply bind_ok in Hd as (payload & Hp & Hd).
    cbn. repeat split; try assumption. eauto.
  - intros (Ht & Hu & Hs & Hut & payload & Hp & Hd).
    rewrite Ht, Hu, Hs, Hut, Hp. cbn [bind]. rewrite Hd. cbn [bind].
    now destruct bundle.
Qed.

Lemma compile_policy_ok_iff (text : string) (script : Buffer) :
  compile_policy text = Ok script <->
  exists ms, Miniscript_fromString text "tap" = Ok ms
             /\ script = Miniscript_encode ms.
Proof.
  unfold compile_policy, toBuffer.
  destruct (Miniscript_fromString text "tap") as [ms|e]; cbn [bind].
  - split; [intros [= <-]; eauto | intros (ms' & [= <-] & ->); reflexivity].
  - split; [discriminate | intros (ms' & H & _); discriminate].
Qed.

(** X10. What a bundle holds, for a covenant threshold and timelocks
    within the safe integers: [buildScripts] returns [bundle] exactly when
    [Miniscript.fromString], under the context "tap", accepts the staking
    timelock text, the unbonding text, the slashing text and the unbonding
    timelock text, the first four scripts of the bundle are the encodings
    of the four results, and the assembler turns OP_RETURN followed by the
    payload into the fifth. *)
Theorem bundle_contents
    (this : StakingScriptDataMini) (bundle : StakingScripts) :
  safe_integer (covenantThreshold this) ->
  safe_integer (stakingTimeLock this) ->
  safe_integer (unbondingTimeLock this) ->
  (buildScripts this = Ok bundle <->
   (exists ms,
      Miniscript_fromString
        (timelock_text (stakerKey this) (stakingTimeLock this)) "tap" = Ok ms
      /\ timelockScript bundle = Miniscript_encode ms)
   /\ (exists ms,
         Miniscript_fromString
           (unbonding_text (stakerKey this) (covenantThreshold this)
              (covenantKeys this)) "tap" = Ok ms
         /\ unbondingScript bundle = Miniscript_encode ms)
   /\ (exists ms,
         Miniscript_fromString
           (slashing_text (stakerKey this) (finalityProviderKeys this)
              (covenantThreshold this) (covenantKeys this)) "tap" = Ok ms
         /\ slashingScript bundle = Miniscript_encode ms)
   /\ (exists ms,
         Miniscript_fromString
           (timelock_text (stakerKey this) (unbondingTimeLock this)) "tap"
           = Ok ms
         /\ unbondingTimelockScript bundle = Miniscript_encode ms)
   /\ exists payload,
        serializedStakingData this = Ok payload
        /\ script_compile [ChunkOp OP_RETURN; ChunkData payload]
           = Ok (dataEmbedScript bundle)).
Proof.
  intros _ _ _.
  rewrite buildScripts_ok_iff.
  split.
  - intros (Ht & Hu & Hs & Hut & Hd).
    repeat split; try (now apply compile_policy_ok_iff). exact Hd.
  - intros (Ht & Hu & Hs & Hut & Hd).
    repeat split; try (now apply compile_policy_ok_iff). exact Hd.
Qed.

(** X11. The payload can be read back: for two objects that pass
    [validate] and whose magic bytes have the same length, equal payloads
    mean equal magic bytes, staker keys, first provider keys and staking
    timelocks; the payload is 67 bytes longer than the magic bytes. *)
Theorem payload_determines_fields
    (this1 this2 : StakingScriptDataMini) (payload : Buffer) :
  validate this1 = true -> validate this2 = true ->
  List.length (magicBytes this1) = List.length (magicBytes this2) ->
  serializedStakingData this1 = Ok payload ->
  serializedStakingData this2 = Ok payload ->
  magicBytes this1 = magicBytes this2
  /\ stakerKey this1 = stakerKey this2
  /\ nth_error (finalityProviderKeys this1) 0 =
     nth_error (finalityProviderKeys this2) 0
  /\ stakingTimeLock this1 = stakingTimeLock this2
  /\ List.length payload = (List.length (magicBytes this1) + 67)%nat.
Proof.
  intros V1 V2 Hlen H1 H2.
  apply validate_true_iff in V1 as (Hs1 & Hf1 & _ & _).
  apply validate_true_iff in V2 as (Hs2 & Hf2 & _ & _).
  apply serialized_ok_inv in H1 as (fp1 & r1 & E1 & R1 & P1).
  apply serialized_ok_inv in H2 as (fp2 & r2 & E2 & R2 & P2).
  rewrite E1 in Hf1. rewrite E2 in Hf2.
  inversion Hf1 as [|? ? Hk1 _]; subst.
  inversion Hf2 as [|? ? Hk2 _]; subst.
  unfold key32 in *.
  assert (L : List.length
                (magicBytes this1 ++ [x00] ++ stakerKey this1 ++ fp1 ++
                 [byte_of_Z (Z.shiftr (stakingTimeLock this1) 8);
                  byte_of_Z (stakingTimeLock this1)])%list
              = (List.length (magicBytes this1) + 67)%nat)
    by (rewrite !length_app; cbn [List.length]; lia).
  apply app_same_length_inj in P2 as [Hm P2]; [|exact Hlen].
  cbn [app] in P2. injection P2 as P2.
  apply app_same_length_inj in P2 as [Hs P2]; [|congruence].
  apply app_same_length_inj in P2 as [Hf P2]; [|congruence].
  injection P2 as Hhi Hlo.
  destruct (writeUInt16BE_in_range _ R1) as [_ T1].
  destruct (writeUInt16BE_in_range _ R2) as [_ T2].
  rewrite E1, E2, Hf. repeat split; try assumption; try reflexivity.
  - rewrite <- T1, <- T2, Hhi, Hlo. reflexivity.
  - now rewrite <- Hf.
Qed.

End BundleProperties.

(* ================================================================== *)
(** ** Properties of the comparison of two bundles *)

Lemma Buffer_equals_eq (a b : Buffer) : Buffer_equals a b = true <-> a = b.
Proof.
  revert b. induction a as [|x a IH]; intros [|y b]; cbn [Buffer_equals];
    try (split; [discriminate | discriminate]); [tauto|].
  rewrite andb_true_iff, IH. split.
  - intros [Hxy ->]. apply Byte.byte_dec_bl in Hxy. now subst.
  - intros [= -> ->]. split; [now apply Byte.byte_dec_lb | reflexivity].
Qed.

Lemma get_property_some_in (o : ScriptsObject) (key : string) (v : Buffer) :
  get_property o key = Some v -> In (key, v) o.
Proof.
  induction o as [|[k w] o IH]; cbn [get_property]; [discriminate|].
  destruct (String.eqb_spec key k) as [->|N].
  - intros [= ->]. now left.
  - intros H. right. now apply IH.
Qed.

Lemma get_property_in (o : ScriptsObject) (key : string) (v : Buffer) :
  NoDup (map fst o) -> In (key, v) o -> get_property o key = Some v.
Proof.
  induction o as [|[k w] o IH]; cbn [get_property map fst];
    [contradiction|].
  intros Hnd Hin. inversion Hnd as [|? ? Hk Hnd']; subst.
  destruct Hin as [[= -> ->]|Hin].
  - now rewrite String.eqb_refl.
  - destruct (String.eqb_spec key k) as [->|N]; [|now apply IH].
    exfalso. apply Hk. now apply (in_map fst) in Hin.
Qed.

Lemma get_property_none (o : ScriptsObject) (key : string) :
  get_property o key = None <-> ~ In key (map fst o).
Proof.
  induction o as [|[k w] o IH]; cbn [get_property map fst In]; [tauto|].
  destruct (String.eqb_spec key k) as [->|N].
  - split; [discriminate | intros H; exfalso; apply H; now left].
  - rewrite IH. split; [intros H [E|I]; [congruence | now apply H] | tauto].
Qed.

Lemma forEach_ok_iff {A : Type} (f : A -> Result unit) (l : list A) :
  forEach f l = Ok tt <-> (forall x, In x l -> f x = Ok tt).
Proof.
  induction l as [|x l IH]; cbn [forEach In].
  - split; [contradiction | reflexivity].
  - destruct (f x) as [[]|e] eqn:E; cbn [bind].
    + rewrite IH. split.
      * intros H y [<-|Hy]; [exact E | now apply H].
      * intros H y Hy. apply H. now right.
    + split; [discriminate|].
      intros H. specialize (H x (or_introl eq_refl)). congruence.
Qed.

Section ComparisonProperties.

Context `{MS : MiniscriptApi} {MD : MiniscriptDecodeApi}.

Lemma compare_entry_ok_iff (b : ScriptsObject) (key : string) (v : Buffer) :
  compare_entry b (key, v) = Ok tt <-> get_property b key = Some v.
Proof.
  unfold compare_entry.
  destruct (get_property b key) as [w|]; [|split; discriminate].
  destruct (Buffer_equals v w) eqn:E; cbn [negb].
  - apply Buffer_equals_eq in E as ->. tauto.
  - split; [discriminate|]. intros [= ->].
    assert (T : Buffer_equals v v = true) by now apply Buffer_equals_eq.
    congruence.
Qed.

Lemma assertEqualScripts_ok_iff (a b : ScriptsObject) :
  NoDup (map fst a) -> NoDup (map fst b) ->
  assertEqualScripts a b = Ok tt <->
  (forall key, get_property a key = get_property b key).
Proof.
  intros Ha Hb. unfold assertEqualScripts.
  destruct (Nat.eqb_spec (List.length a) (List.length b)) as [L|L];
    cbn [negb].
  - rewrite forEach_ok_iff. split.
    + intros H key.
      assert (I : incl (map fst a) (map fst b)).
      { intros k Hk. apply in_map_iff in Hk as ([k' v] & <- & Hin).
        apply H, compare_entry_ok_iff, get_property_some_in in Hin.
        now apply (in_map fst) in Hin. }
      destruct (get_property a key) as [v|] eqn:G.
      * apply get_property_some_in in G.
        symmetry. now apply compare_entry_ok_iff, H.
      * symmetry. apply get_property_none. intros Hk.
        apply get_property_none in G. apply G.
        apply (@NoDup_length_incl _ (map fst a) (map fst b) Ha);
          [rewrite !length_map; lia | exact I | exact Hk].
    + intros H [k v] Hin. apply compare_entry_ok_iff.
      rewrite <- H. now apply get_property_in.
  - split; [discriminate|]. intros H. exfalso. apply L.
    assert (I : forall x y : ScriptsObject,
               (forall key, get_property x key = get_property y key) ->
               incl (map fst x) (map fst y)).
    { intros x y Hxy k Hk.
      destruct (get_property y k) eqn:G.
      - apply get_property_some_in in G. now apply (in_map fst) in G.
      - rewrite <- Hxy in G. apply get_property_none in G. contradiction. }
    pose proof (NoDup_incl_length Ha (I a b H)) as L1.
    pose proof (NoDup_incl_length Hb
                  (I b a (fun key => eq_sym (H key)))) as L2.
    rewrite !length_map in L1, L2. lia.
Qed.

(** X12. [assertEqualScripts] returns without throwing exactly when the
    two objects have the same properties with the same bytes; for two
    bundles of [buildScripts], exactly when the bundles are equal. *)
Theorem assertEqualScripts_passes_iff (a b : ScriptsObject) :
  (NoDup (map fst a) -> NoDup (map fst b) ->
   (assertEqualScripts a b = Ok tt <->
    (forall key, get_property a key = get_property b key)))
  /\ (forall s1 s2 : StakingScripts,
        assertEqualScripts (object_of_scripts s1) (object_of_scripts s2)
          = Ok tt <-> s1 = s2).
Proof.
  split; [apply assertEqualScripts_ok_iff|].
  intros s1 s2.
  assert (ND : forall s, NoDup (map fst (object_of_scripts s))).
  { intros s. cbn. repeat constructor; cbn; intuition discriminate. }
  rewrite (assertEqualScripts_ok_iff _ _ (ND s1) (ND s2)). split.
  - intros H.
    pose proof (H "timelockScript") as H1.
    pose proof (H "unbondingScript") as H2.
    pose proof (H "slashingScript") as H3.
    pose proof (H "unbondingTimelockScript") as H4.
    pose proof (H "dataEmbedScript") as H5.
    cbn in H1, H2, H3, H4, H5.
    destruct s1, s2; cbn in *. congruence.
  - now intros ->.
Qed.

End ComparisonProperties.

(* ================================================================== *)
(** ** From the object to the bundle, and from the text back *)

Lemma string_app_same_length_inj (a a' b b' : string) :
  String.length a = String.length a' ->
  a ++ b = a' ++ b' -> a = a' /\ b = b'.
Proof.
  revert a'. induction a as [|x a IH]; intros [|x' a'] Hlen H;
    try discriminate Hlen.
  - now split.
  - cbn in Hlen, H. injection H as -> H. injection Hlen as Hlen.
    destruct (IH a' Hlen H) as [-> ->]. now split.
Qed.

Lemma string_app_inv_tail (a b c : string) : a ++ c = b ++ c -> a = b.
Proof.
  intros H.
  assert (L : String.length a = String.length b).
  { apply (f_equal String.length) in H.
    rewrite !string_length_app in H. lia. }
  now destruct (string_app_same_length_inj a b c c L H).
Qed.

Lemma hex_injective (a b : Buffer) :
  Buffer_toString_hex a = Buffer_toString_hex b -> a = b.
Proof.
  intros H. apply (f_equal parse_hex) in H.
  rewrite !parse_hex_toString in H. now injection H.
Qed.

Lemma Number_toString_injective (m n : Z) :
  Number_toString m = Number_toString n -> m = n.
Proof.
  unfold Number_toString. intros H. apply (f_equal decimal_value) in H.
  rewrite !decimal_value_toString in H. now injection H.
Qed.

Section EndToEnd.

Context `{MS : MiniscriptApi} `{SC : ScriptApi}.

(** X14. With a compiler and an assembler that accept every input, the
    only objects for which [buildScripts] returns no bundle are those
    without a finality-provider key or with a staking timelock outside
    0..65535. *)
Theorem buildScripts_succeeds_iff (this : StakingScriptDataMini) :
  (forall text, exists ms, Miniscript_fromString text "tap" = Ok ms) ->
  (forall chunks, exists script, script_compile chunks = Ok script) ->
  (exists bundle, buildScripts this = Ok bundle) <->
  finalityProviderKeys this <> [] /\ 0 <= stakingTimeLock this <= 65535.
Proof.
  intros Hcompile Hassemble. split.
  - intros [bundle H].
    apply buildScripts_ok_iff in H as (_ & _ & _ & _ & payload & Hp & _).
    apply serialized_ok_inv in Hp as (fp & rest & Hfp & Hr & _).
    split; [now rewrite Hfp | exact Hr].
  - intros [Hfp Hr].
    assert (C : forall text, exists script, compile_policy text = Ok script).
    { intros text. unfold compile_policy.
      destruct (Hcompile text) as [ms ->]. cbn; eauto. }
    destruct (C (timelock_text (stakerKey this) (stakingTimeLock this)))
      as [t Ht].
    destruct (C (unbonding_text (stakerKey this) (covenantThreshold this)
                   (covenantKeys this))) as [u Hu].
    destruct (C (slashing_text (stakerKey this) (finalityProviderKeys this)
                   (covenantThreshold this) (covenantKeys this))) as [s Hs].
    destruct (C (timelock_text (stakerKey this) (unbondingTimeLock this)))
      as [ut Hut].
    assert (P : exists payload, serializedStakingData this = Ok payload).
    { unfold serializedStakingData.
      destruct (writeUInt16BE_in_range _ Hr) as [-> _].
      destruct (finalityProviderKeys this); [contradiction|]. cbn; eauto. }
    destruct P as [payload Hp].
    destruct (Hassemble [ChunkOp OP_RETURN; ChunkData payload]) as [d Hd].
    exists {| timelockScript := t; unbondingScript := u;
              slashingScript := s; unbondingTimelockScript := ut;
              dataEmbedScript := d |}.
    apply buildScripts_ok_iff. cbn. repeat split; try assumption. eauto.
Qed.

(** X15. The timelock text can be read back: two objects that pass
    [validate] render the same timelock text only when they have the same
    staker key and are given the same timelock. *)
Theorem timelock_text_determines_inputs
    (this1 this2 : StakingScriptDataMini) (lock1 lock2 : Z) :
  validate this1 = true -> validate this2 = true ->
  renderTimelockScript this1 lock1 = renderTimelockScript this2 lock2 ->
  stakerKey this1 = stakerKey this2 /\ lock1 = lock2.
Proof.
  intros V1 V2 H.
  apply validate_true_iff in V1 as (K1 & _).
  apply validate_true_iff in V2 as (K2 & _).
  rewrite !renderTimelockScript_text in H. injection H as H.
  apply string_app_same_length_inj in H as [Hk H];
    [|rewrite !hex_length; unfold key32 in *; congruence].
  injection H as H.
  apply string_app_inv_tail in H.
  split; [now apply hex_injective | now apply Number_toString_injective].
Qed.

End EndToEnd.

(* ================================================================== *)
(** ** The further properties at concrete inputs *)

Lemma list_argument_like_separate_arguments_witness :
  msString (MS := echo_miniscript) ["multi_a(2, "; ", "; ", "; ")"]
    [JsBuffer (key_of x02); JsBuffer (key_of x03); JsBuffer (key_of x04)]
  = msString (MS := echo_miniscript) ["multi_a(2, "; ")"]
      [JsArray [JsBuffer (key_of x02); JsBuffer (key_of x03);
                JsBuffer (key_of x04)]].
Proof.
  apply (proj1 (list_argument_like_separate_arguments
                  (MS := echo_miniscript) "multi_a(2, " ", " ")"
                  (JsBuffer (key_of x02))
                  [JsBuffer (key_of x03); JsBuffer (key_of x04)]
                  eq_refl eq_refl)).
Defined.

Lemma render_first_failure_witness :
  msString (MS := echo_miniscript) ["older("; ")"] [JsBoolean true]
  = Throw (JsError "Unsupported type: boolean").
Proof.
  refine (proj1 (render_first_failure (MS := echo_miniscript)
                   ["older("; ")"] [JsBoolean true] 0 _ _ _)).
  - cbn. lia.
  - reflexivity.
  - intros j Hj. lia.
Defined.

Lemma surplus_arguments_ignored_witness :
  msString (MS := echo_miniscript) ["older("; ")"]
    ([JsNumber 144; JsNumber 7] ++ [JsNull])
  = msString (MS := echo_miniscript) ["older("; ")"]
      [JsNumber 144; JsNumber 7].
Proof.
  apply (proj1 (surplus_arguments_ignored (MS := echo_miniscript)
                  ["older("; ")"] [JsNumber 144; JsNumber 7] [JsNull] 0)).
  cbn. lia.
Defined.

Lemma short_lists_render_witness :
  formatMs (MS := echo_miniscript) "older(" (JsArray [JsNumber 144])
  = formatMs (MS := echo_miniscript) "older(" (JsNumber 144).
Proof.
  apply (proj2 (short_lists_render (MS := echo_miniscript) "older(")).
  reflexivity.
Defined.

Lemma payload_outcome_witness :
  serializedStakingData negative_timelock_data
    = Throw (JsRangeError "ERR_OUT_OF_RANGE")
  /\ buildDataEmbedScript (SC := raw_script) negative_timelock_data
     = Throw (JsRangeError "ERR_OUT_OF_RANGE").
Proof.
  apply (proj1 (payload_outcome (SC := raw_script) negative_timelock_data)).
  left. cbn. lia.
Defined.

Lemma bundle_needs_provider_and_timelock_witness :
  finalityProviderKeys sample_data <> []
  /\ 0 <= stakingTimeLock sample_data <= 65535.
Proof.
  eapply (bundle_needs_provider_and_timelock (MS := echo_miniscript)
            (SC := raw_script) sample_data).
  vm_compute. reflexivity.
Defined.

Lemma payload_determines_fields_witness :
  magicBytes payload_example = magicBytes payload_example
  /\ stakerKey payload_example = stakerKey payload_example
  /\ nth_error (finalityProviderKeys payload_example) 0 =
     nth_error (finalityProviderKeys payload_example) 0
  /\ stakingTimeLock payload_example = stakingTimeLock payload_example
  /\ List.length
       ([xaa; xbb; xcc; xdd] ++ [x00] ++ repeat x00 32 ++ repeat xff 32
        ++ [x00; x64])%list
     = (List.length (magicBytes payload_example) + 67)%nat.
Proof.
  apply (payload_determines_fields payload_example payload_example);
    reflexivity.
Defined.

Lemma assertEqualScripts_passes_iff_witness :
  assertEqualScripts (MD := echo_decoder)
    [("timelockScript", [x01; x02])] [("timelockScript", [x01; x02])]
    = Ok tt
  <-> (forall key,
         get_property [("timelockScript", [x01; x02])] key =
         get_property [("timelockScript", [x01; x02])] key).
Proof.
  apply (proj1 (assertEqualScripts_passes_iff (MD := echo_decoder)
                  [("timelockScript", [x01; x02])]
                  [("timelockScript", [x01; x02])]));
    repeat constructor; cbn; tauto.
Defined.

Lemma buildScripts_succeeds_iff_witness :
  (exists bundle,
     buildScripts (MS := echo_miniscript) (SC := raw_script) sample_data
       = Ok bundle)
  <-> finalityProviderKeys sample_data <> []
      /\ 0 <= stakingTimeLock sample_data <= 65535.
Proof.
  apply (buildScripts_succeeds_iff (MS := echo_miniscript)
           (SC := raw_script) sample_data).
  - intros text. eexists. reflexivity.
  - intros chunks. eexists. reflexivity.
Defined.

Lemma timelock_text_determines_inputs_witness :
  stakerKey sample_data = stakerKey no_provider_data /\ 144 = 144.
Proof.
  apply (timelock_text_determines_inputs (MS := echo_miniscript)
           sample_data no_provider_data 144 144); reflexivity.
Defined.

Lemma unbonding_script_text_witness :
  renderUnbondingScript (MS := echo_miniscript) sample_data =
  Ok "and_v(v:pk(0101010101010101010101010101010101010101010101010101010101010101),multi_a(2,0202020202020202020202020202020202020202020202020202020202020202,0303030303030303030303030303030303030303030303030303030303030303,0404040404040404040404040404040404040404040404040404040404040404))".
Proof.
  refine (proj1 (unbonding_script_text (MS := echo_miniscript)
                   sample_data _)).
  unfold safe_integer, MAX_SAFE_INTEGER. cbn. lia.
Defined.

Lemma slashing_script_text_witness :
  renderSlashingScript (MS := echo_miniscript) no_provider_data =
  Ok "and_v(and_v(v:pk(0101010101010101010101010101010101010101010101010101010101010101),),multi_a(2,0202020202020202020202020202020202020202020202020202020202020202,0303030303030303030303030303030303030303030303030303030303030303,0404040404040404040404040404040404040404040404040404040404040404))".
Proof.
  refine (proj1 (slashing_script_text (MS := echo_miniscript)
                   no_provider_data _)).
  unfold safe_integer, MAX_SAFE_INTEGER. cbn. lia.
Defined.

Lemma bundle_contents_witness :
  exists ms,
    Miniscript_fromString (MiniscriptApi := echo_miniscript)
      (timelock_text (stakerKey sample_data) (stakingTimeLock sample_data))
      "tap" = Ok ms
    /\ timelockScript sample_bundle = Miniscript_encode ms.
Proof.
  refine (proj1 (proj1 (bundle_contents (MS := echo_miniscript)
                          (SC := raw_script) sample_data sample_bundle
                          _ _ _) _)).
  - unfold safe_integer, MAX_SAFE_INTEGER. cbn. lia.
  - unfold safe_integer, MAX_SAFE_INTEGER. cbn. lia.
  - unfold safe_integer, MAX_SAFE_INTEGER. cbn. lia.
  - vm_compute. reflexivity.
Defined.
